(** * AmazingAuto: project detection and CI pipeline synthesis

    A shallow embedding of [amazing_automata.py]: the three classes
    [ProjectDetector], [PipelineGenerator] and [AmazingAutomata] become three
    modules of the same names.  Code that touches the file system runs in a
    state-and-exception monad over an abstract world; everything else is a
    plain function. *)

From Stdlib Require Import String Ascii List ZArith Bool Lia.
Import ListNotations.
Local Open Scope string_scope.

(** ** Python strings and paths *)

(** The double-quote character, for literals such as [echo "Build step"]. *)
Definition dq : string := String (ascii_of_nat 34) EmptyString.

(** [needle in hay] on two [str] values. *)
Fixpoint str_in (needle hay : string) : bool :=
  String.prefix needle hay ||
  match hay with
  | EmptyString => false
  | String _ rest => str_in needle rest
  end.

(** [s.startswith(p)]. *)
Definition startswith (s p : string) : bool := String.prefix p s.

(** [s.endswith('/')]. *)
Fixpoint endswith_slash (s : string) : bool :=
  match s with
  | EmptyString => false
  | String c EmptyString => Ascii.eqb c "/"
  | String _ rest => endswith_slash rest
  end.

(** [posixpath.join(a, b)] for two components. *)
Definition path_join (a b : string) : string :=
  if startswith b "/" then b
  else if (a =? "") || endswith_slash a then a ++ b
  else a ++ "/" ++ b.

(** The part of [s] up to and including its last slash, if it has one. *)
Fixpoint head_to_last_slash (s : string) : option string :=
  match s with
  | EmptyString => None
  | String c rest =>
      match head_to_last_slash rest with
      | Some h => Some (String c h)
      | None => if Ascii.eqb c "/" then Some (String c EmptyString) else None
      end
  end.

Fixpoint all_slashes (s : string) : bool :=
  match s with
  | EmptyString => true
  | String c rest => Ascii.eqb c "/" && all_slashes rest
  end.

(** [s.rstrip('/')]. *)
Fixpoint rstrip_slashes (s : string) : string :=
  match s with
  | EmptyString => EmptyString
  | String c rest =>
      match rstrip_slashes rest with
      | EmptyString => if Ascii.eqb c "/" then EmptyString else String c EmptyString
      | r => String c r
      end
  end.

(** [posixpath.dirname(p)]. *)
Definition dirname (p : string) : string :=
  match head_to_last_slash p with
  | None => ""
  | Some head => if all_slashes head then head else rstrip_slashes head
  end.

(** The lines a text file yields when iterated, each with its newline. *)
Fixpoint file_lines_from (cur : string) (s : string) : list string :=
  match s with
  | EmptyString => if cur =? "" then [] else [cur]
  | String c rest =>
      if Ascii.eqb c (ascii_of_nat 10)
      then (cur ++ String c EmptyString) :: file_lines_from "" rest
      else file_lines_from (cur ++ String c EmptyString) rest
  end.

Definition file_lines (s : string) : list string := file_lines_from "" s.

(** ** Exceptions *)

Inductive exn : Type :=
| AttributeError
| TypeError
| OSError
| ValueError (msg : string).

(** Pure code that may raise. *)
Definition bindE {A B : Type} (m : exn + A) (k : A -> exn + B) : exn + B :=
  match m with
  | inl e => inl e
  | inr a => k a
  end.

Notation "'let?' x ':=' m 'in' k" := (bindE m (fun x => k))
  (at level 10, x name, m at level 100, k at level 200).

(** ** Values read by [json.load] *)

#[warnings="-register-all"] Inductive json : Type :=
| JNull
| JBool (b : bool)
| JNum (n : Z)   (* a number; the program only ever tests it for zero *)
| JStr (s : string)
| JArr (items : list json)
| JObj (entries : list (string * json)).

(** A Python [dict] with string keys, in insertion order. *)
Definition dict : Type := list (string * json).

(** [bool(v)]. *)
Definition truthy (v : json) : bool :=
  match v with
  | JNull => false
  | JBool b => b
  | JNum n => negb (n =? 0)%Z
  | JStr s => negb (s =? "")
  | JArr items => match items with [] => false | _ :: _ => true end
  | JObj entries => match entries with [] => false | _ :: _ => true end
  end.

Fixpoint dict_get (d : dict) (k : string) : option json :=
  match d with
  | [] => None
  | (k', v) :: rest => if k' =? k then Some v else dict_get rest k
  end.

(** [k in d]. *)
Definition dict_mem (k : string) (d : dict) : bool :=
  match dict_get d k with Some _ => true | None => false end.

(** [d[k] = v]. *)
Fixpoint dict_set (d : dict) (k : string) (v : json) : dict :=
  match d with
  | [] => [(k, v)]
  | (k', v') :: rest =>
      if k' =? k then (k', v) :: rest else (k', v') :: dict_set rest k v
  end.

(** [{**a, **b}] on two dicts. *)
Definition dict_merge (a b : dict) : dict :=
  fold_left (fun acc kv => dict_set acc (fst kv) (snd kv)) b a.

(** [v.get(k, default)]: only a dict has a [get] method. *)
Definition py_get (v : json) (k : string) (default : json) : exn + json :=
  match v with
  | JObj d => inr (match dict_get d k with Some x => x | None => default end)
  | _ => inl AttributeError
  end.

(** [{**a, **b}] on two values: both must be mappings. *)
Definition py_unpack2 (a b : json) : exn + dict :=
  match a, b with
  | JObj da, JObj db => inr (dict_merge da db)
  | _, _ => inl TypeError
  end.

(** [v == s] for a string literal [s]. *)
Definition json_eq_str (v : json) (s : string) : bool :=
  match v with
  | JStr s' => s' =? s
  | _ => false
  end.

(** [needle in v] for a string literal [needle]. *)
Definition py_in (needle : string) (v : json) : exn + bool :=
  match v with
  | JObj d => inr (dict_mem needle d)
  | JArr items => inr (existsb (fun x => json_eq_str x needle) items)
  | JStr s => inr (str_in needle s)
  | _ => inl TypeError
  end.

(** ** Library functions the program calls *)

(** Documents handed to [yaml.dump]: dicts, lists and strings. *)
#[warnings="-register-all"] Inductive yaml : Type :=
| YStr (s : string)
| YList (items : list yaml)
| YMap (entries : list (string * yaml)).

(** The pure library functions whose behaviour the program relies on but does
    not define: [str.lower], [str.strip] and [yaml.dump] (called with
    [default_flow_style=False, allow_unicode=True]). *)
Class PyLib : Type := {
  str_lower : string -> string;
  str_strip : string -> string;
  yaml_dump : yaml -> string
}.

(** The file system as the program sees it.  Every operation is an
    observation of, or an action on, a world [W]:
    - [fs_read p w]: the text of [open(p, 'r').read()], [None] if that raises;
    - [fs_load_json p w]: the value of [json.load(open(p, 'r'))], [None] if
      opening or parsing raises;
    - [fs_glob root pat w]: [list(Path(root).glob(pat))], [None] if it raises;
    - [fs_makedirs d w]: [os.makedirs(d, exist_ok=True)], with a success flag;
    - [fs_write p s w]: [open(p, 'w').write(s)], with a success flag. *)
Class FileSystem (W : Type) : Type := {
  fs_read : string -> W -> option string;
  fs_load_json : string -> W -> option json;
  fs_glob : string -> string -> W -> option (list string);
  fs_makedirs : string -> W -> bool * W;
  fs_write : string -> string -> W -> bool * W
}.

(** ** The monad of effectful code: a world is threaded, exceptions abort *)

Definition M (W A : Type) : Type := W -> (exn + A) * W.

Definition ret {W A : Type} (a : A) : M W A := fun w => (inr a, w).

Definition raise {W A : Type} (e : exn) : M W A := fun w => (inl e, w).

Definition bind {W A B : Type} (m : M W A) (k : A -> M W B) : M W B :=
  fun w =>
    match m w with
    | (inl e, w') => (inl e, w')
    | (inr a, w') => k a w'
    end.

(** [try: m  except: h]. *)
Definition try_except {W A : Type} (m : M W A) (h : exn -> M W A) : M W A :=
  fun w =>
    match m w with
    | (inl e, w') => h e w'
    | (inr a, w') => (inr a, w')
    end.

Definition liftE {W A : Type} (r : exn + A) : M W A := fun w => (r, w).

Notation "x <- m ;; k" := (bind m (fun x => k))
  (at level 100, m at next level, right associativity).

(** [a or b] where evaluating [b] may touch the world. *)
Definition orM {W : Type} (a b : M W bool) : M W bool :=
  x <- a ;; if (x : bool) then ret true else b.

Section Primitives.
Context {W : Type} {FS : FileSystem W}.

(** [with open(p, 'r') as f: f.read()]. *)
Definition read_file (p : string) : M W string :=
  fun w => match fs_read p w with
           | Some s => (inr s, w)
           | None => (inl OSError, w)
           end.

(** [with open(p, 'r') as f: json.load(f)]. *)
Definition load_json_file (p : string) : M W json :=
  fun w => match fs_load_json p w with
           | Some v => (inr v, w)
           | None => (inl OSError, w)
           end.

(** [list(Path(root).glob(pattern))]. *)
Definition glob (root pattern : string) : M W (list string) :=
  fun w => match fs_glob root pattern w with
           | Some l => (inr l, w)
           | None => (inl OSError, w)
           end.

(** [os.makedirs(d, exist_ok=True)]. *)
Definition makedirs (d : string) : M W unit :=
  fun w => let (ok, w') := fs_makedirs d w in
           ((if ok then inr tt else inl OSError), w').

(** [with open(p, 'w') as f: f.write(s)]. *)
Definition write_file (p s : string) : M W unit :=
  fun w => let (ok, w') := fs_write p s w in
           ((if ok then inr tt else inl OSError), w').
End Primitives.

(** ** The project profile *)

Record Structure : Type := {
  monorepo : bool;
  microservices : bool;
  layered : bool;
  modular : bool;
  dockerized : bool
}.

(** The [project_info] dict.  [framework] is [None] for Python's [None];
    [type] is [None] while the key is absent. *)
Record ProjectInfo : Type := {
  path : string;
  language : string;
  framework : option string;
  type : option string;
  structure : Structure;
  complexity : string;
  dependencies : list string;
  testing : bool;
  build_tools : list string;
  deployment : list string
}.

(** The dict returned by the classifier. *)
Record Detection : Type := {
  det_language : string;
  det_framework : option string;
  det_type : string
}.

(** [project_info.update(detection)]. *)
Definition update_detection (p : ProjectInfo) (d : Detection) : ProjectInfo :=
  {| path := path p; language := det_language d; framework := det_framework d;
     type := Some (det_type d); structure := structure p;
     complexity := complexity p; dependencies := dependencies p;
     testing := testing p; build_tools := build_tools p;
     deployment := deployment p |}.

Definition set_structure (p : ProjectInfo) (s : Structure) : ProjectInfo :=
  {| path := path p; language := language p; framework := framework p;
     type := type p; structure := s; complexity := complexity p;
     dependencies := dependencies p; testing := testing p;
     build_tools := build_tools p; deployment := deployment p |}.

Definition set_complexity (p : ProjectInfo) (c : string) : ProjectInfo :=
  {| path := path p; language := language p; framework := framework p;
     type := type p; structure := structure p; complexity := c;
     dependencies := dependencies p; testing := testing p;
     build_tools := build_tools p; deployment := deployment p |}.

Definition set_testing (p : ProjectInfo) (t : bool) : ProjectInfo :=
  {| path := path p; language := language p; framework := framework p;
     type := type p; structure := structure p; complexity := complexity p;
     dependencies := dependencies p; testing := t;
     build_tools := build_tools p; deployment := deployment p |}.

Definition set_build_tools (p : ProjectInfo) (l : list string) : ProjectInfo :=
  {| path := path p; language := language p; framework := framework p;
     type := type p; structure := structure p; complexity := complexity p;
     dependencies := dependencies p; testing := testing p;
     build_tools := l; deployment := deployment p |}.

Definition set_deployment (p : ProjectInfo) (l : list string) : ProjectInfo :=
  {| path := path p; language := language p; framework := framework p;
     type := type p; structure := structure p; complexity := complexity p;
     dependencies := dependencies p; testing := testing p;
     build_tools := build_tools p; deployment := l |}.

(** The manifest bundle handed to the classifier. *)
Record ManifestFiles : Type := {
  package_json : option json;
  requirements_txt : option (list string);
  pom_xml : option string;
  go_mod : option string;
  composer_json : option json;
  csproj : option string
}.

(** Truth values of the optional manifests. *)
Definition truthy_json (o : option json) : bool :=
  match o with Some v => truthy v | None => false end.

Definition truthy_str (o : option string) : bool :=
  match o with Some s => negb (s =? "") | None => false end.

Definition truthy_list {A : Type} (o : option (list A)) : bool :=
  match o with Some (_ :: _) => true | _ => false end.

(** * class ProjectDetector *)

Module ProjectDetector.

(** The local variable [all_deps] of [_detect_language_and_framework]: the
    direct and the development dependencies of the package manifest, merged. *)
Definition all_deps (package_json : json) : exn + dict :=
  let? dependencies := py_get package_json "dependencies" (JObj []) in
  let? dev_dependencies := py_get package_json "devDependencies" (JObj []) in
  py_unpack2 dependencies dev_dependencies.

(** The body of the [if files['package_json']:] block of
    [_detect_language_and_framework]: [Some d] when one of its rules returns
    [d], [None] when control falls out of the block. *)
Definition _package_json_rules (package_json : json) : exn + option Detection :=
  let? all_deps := all_deps package_json in
  if dict_mem "typescript" all_deps || dict_mem "ts-node" all_deps then
    inr (Some {| det_language := "typescript";
                 det_framework := Some "typescript";
                 det_type := "backend" |})
  else if dict_mem "react-native" all_deps then
    inr (Some {| det_language := "javascript";
                 det_framework := Some "react-native";
                 det_type := "mobile" |})
  else if dict_mem "react" all_deps || dict_mem "react-dom" all_deps then
    inr (Some {| det_language := "javascript";
                 det_framework := Some "react";
                 det_type := "frontend" |})
  else if dict_mem "vue" all_deps || dict_mem "@vue/cli-service" all_deps then
    inr (Some {| det_language := "javascript";
                 det_framework := Some "vue";
                 det_type := "frontend" |})
  else if dict_mem "@angular/core" all_deps || dict_mem "@angular/cli" all_deps then
    inr (Some {| det_language := "typescript";
                 det_framework := Some "angular";
                 det_type := "frontend" |})
  else if existsb (fun dep => dict_mem dep all_deps)
                  ["express"; "koa"; "fastify"; "nestjs"] then
    inr (Some {| det_language := "javascript";
                 det_framework := Some "nodejs";
                 det_type := "backend" |})
  else
    let express := {| det_language := "javascript";
                      det_framework := Some "express";
                      det_type := "backend" |} in
    let? name := py_get package_json "name" JNull in
    if json_eq_str name "express" then inr (Some express)
    else
      let? keywords := py_get package_json "keywords" (JArr []) in
      let? listed := py_in "express" keywords in
      if (listed : bool) then inr (Some express) else inr None.

Definition test_patterns (language : string) : list string :=
  let javascript :=
    ["**/*.test.js"; "**/*.spec.js"; "**/tests/**"; "**/__tests__/**"] in
  if language =? "javascript" then javascript
  else if language =? "python" then ["**/*_test.py"; "**/test_*.py"; "**/tests/**"]
  else if language =? "java" then ["**/*Test.java"; "**/test/**"]
  else if language =? "go" then ["**/*_test.go"; "**/test/**"]
  else if language =? "csharp" then ["**/*Test.cs"; "**/Tests/**"]
  else javascript.

(** The dependency-count tier of the complexity score. *)
Definition dependency_tier (n : nat) : Z :=
  if (50 <? n)%nat then 2 else if (20 <? n)%nat then 1 else 0.

(** The local variable [score] of [_assess_complexity] when it is compared
    with the thresholds. *)
Definition _assess_complexity_score (project_info : ProjectInfo) : Z :=
  let score := 0%Z in
  let score := (score + dependency_tier (length (dependencies project_info)))%Z in
  let structure := structure project_info in
  let score := if monorepo structure then (score + 2)%Z else score in
  let score := if microservices structure then (score + 2)%Z else score in
  let score := if negb (testing project_info) then (score + 1)%Z else score in
  score.

Definition _assess_complexity (project_info : ProjectInfo) : string :=
  let score := _assess_complexity_score project_info in
  if (5 <=? score)%Z then "high"
  else if (3 <=? score)%Z then "medium"
  else "low".

Section WithWorld.
Context {W : Type} {FS : FileSystem W} {L : PyLib}.

Definition _file_exists (project_path pattern : string) : M W bool :=
  try_except
    (l <- glob project_path pattern ;;
     ret (0 <? length l)%nat)
    (fun _ => ret false).

Definition _read_package_json (project_path : string) : M W (option json) :=
  try_except
    (v <- load_json_file (path_join project_path "package.json") ;;
     ret (Some v))
    (fun _ => ret None).

Definition _read_requirements_txt (project_path : string)
  : M W (option (list string)) :=
  try_except
    (f <- read_file (path_join project_path "requirements.txt") ;;
     ret (Some (map str_strip
                  (filter (fun line => negb (str_strip line =? "")
                                       && negb (startswith line "#"))
                          (file_lines f)))))
    (fun _ => ret None).

Definition _read_pom_xml (project_path : string) : M W (option string) :=
  try_except
    (s <- read_file (path_join project_path "pom.xml") ;; ret (Some s))
    (fun _ => ret None).

Definition _read_go_mod (project_path : string) : M W (option string) :=
  try_except
    (s <- read_file (path_join project_path "go.mod") ;; ret (Some s))
    (fun _ => ret None).

Definition _read_composer_json (project_path : string) : M W (option json) :=
  try_except
    (v <- load_json_file (path_join project_path "composer.json") ;;
     ret (Some v))
    (fun _ => ret None).

Definition _read_csproj (project_path : string) : M W (option string) :=
  try_except
    (csproj_files <- glob project_path "*.csproj" ;;
     match csproj_files with
     | first :: _ => s <- read_file first ;; ret (Some s)
     | [] => ret None
     end)
    (fun _ => ret None).

Definition _detect_python_framework (project_path : string) : M W string :=
  manage <- _file_exists project_path "manage.py" ;;
  if (manage : bool) then ret "django" else
  app <- _file_exists project_path "app.py" ;;
  if (app : bool) then ret "flask" else
  main <- _file_exists project_path "main.py" ;;
  if (main : bool) then ret "fastapi" else
  try_except
    (pyproject_content <- read_file (path_join project_path "pyproject.toml") ;;
     if str_in "django" (str_lower pyproject_content)
        || str_in ("name = " ++ dq ++ "Django" ++ dq) pyproject_content
     then ret "django"
     else if str_in "flask" (str_lower pyproject_content) then ret "flask"
     else if str_in "fastapi" (str_lower pyproject_content) then ret "fastapi"
     else ret "unknown")
    (fun _ => ret "unknown").

Definition _detect_java_framework (project_path : string) : M W string :=
  app <- _file_exists project_path "src/main/java/**/Application.java" ;;
  if (app : bool) then ret "spring-boot" else
  try_except
    (gradle_content <- read_file (path_join project_path "build.gradle") ;;
     if str_in "spring-boot" (str_lower gradle_content)
        || str_in "springframework" (str_lower gradle_content)
     then ret "spring-boot"
     else ret "unknown")
    (fun _ => ret "unknown").

Definition _detect_go_framework (project_path : string) : M W string :=
  go_mod <- _read_go_mod project_path ;;
  match go_mod with
  | Some content =>
      if negb (content =? "") then
        if str_in "gin-gonic/gin" content then ret "gin"
        else if str_in "labstack/echo" content then ret "echo"
        else if str_in "gofiber/fiber" content then ret "fiber"
        else ret "unknown"
      else ret "unknown"
  | None => ret "unknown"
  end.

Definition _detect_csharp_framework (project_path : string) : M W string :=
  startup <- _file_exists project_path "Startup.cs" ;;
  if (startup : bool) then ret "aspnet-core" else ret "unknown".

Definition _detect_php_framework (project_path : string) : M W string :=
  artisan <- _file_exists project_path "artisan" ;;
  if (artisan : bool) then ret "laravel" else
  composer <- _file_exists project_path "composer.json" ;;
  if (composer : bool) then
    composer_json <- _read_composer_json project_path ;;
    match composer_json with
    | Some v =>
        if truthy v then
          require <- liftE (py_get v "require" (JObj [])) ;;
          symfony <- liftE (py_in "symfony/symfony" require) ;;
          if (symfony : bool) then ret "symfony" else ret "unknown"
        else ret "unknown"
    | None => ret "unknown"
    end
  else ret "unknown".

Definition _detect_language_and_framework
    (project_path : string) (files : ManifestFiles) : M W Detection :=
  matched <-
    match package_json files with
    | Some v => if truthy v then liftE (_package_json_rules v) else ret None
    | None => ret None
    end ;;
  match matched with
  | Some d => ret d
  | None =>
  python <- orM (ret (truthy_list (requirements_txt files)))
           (orM (_file_exists project_path "requirements.txt")
                (_file_exists project_path "pyproject.toml")) ;;
  if (python : bool) then
    fw <- _detect_python_framework project_path ;;
    ret {| det_language := "python"; det_framework := Some fw;
           det_type := "backend" |}
  else
  java <- orM (ret (truthy_str (pom_xml files)))
         (orM (_file_exists project_path "pom.xml")
              (_file_exists project_path "build.gradle")) ;;
  if (java : bool) then
    fw <- _detect_java_framework project_path ;;
    ret {| det_language := "java"; det_framework := Some fw;
           det_type := "backend" |}
  else
  go <- orM (ret (truthy_str (go_mod files)))
            (_file_exists project_path "go.mod") ;;
  if (go : bool) then
    fw <- _detect_go_framework project_path ;;
    ret {| det_language := "go"; det_framework := Some fw;
           det_type := "backend" |}
  else
  c <- orM (_file_exists project_path "Makefile")
      (orM (_file_exists project_path "CMakeLists.txt")
      (orM (_file_exists project_path "configure")
      (orM (_file_exists project_path "*.c")
           (_file_exists project_path "*.h")))) ;;
  if (c : bool) then
    ret {| det_language := "c"; det_framework := Some "unknown";
           det_type := "backend" |}
  else
  csharp <- orM (ret (truthy_str (csproj files)))
                (_file_exists project_path "*.csproj") ;;
  if (csharp : bool) then
    fw <- _detect_csharp_framework project_path ;;
    ret {| det_language := "csharp"; det_framework := Some fw;
           det_type := "backend" |}
  else
  php <- orM (ret (truthy_json (composer_json files)))
             (_file_exists project_path "composer.json") ;;
  if (php : bool) then
    fw <- _detect_php_framework project_path ;;
    ret {| det_language := "php"; det_framework := Some fw;
           det_type := "backend" |}
  else
    ret {| det_language := "unknown"; det_framework := None;
           det_type := "unknown" |}
  end.

Definition _analyze_structure (project_path language : string)
  : M W Structure :=
  is_monorepo <- orM (_file_exists project_path "lerna.json")
                (orM (_file_exists project_path "nx.json")
                     (_file_exists project_path "rush.json")) ;;
  is_microservices <- orM (_file_exists project_path "services")
                          (_file_exists project_path "microservices") ;;
  is_dockerized <- orM (_file_exists project_path "Dockerfile")
                  (orM (_file_exists project_path "docker-compose.yml")
                       (_file_exists project_path "docker-compose.yaml")) ;;
  ret {| monorepo := is_monorepo;
         microservices := is_microservices;
         layered := false;
         modular := false;
         dockerized := is_dockerized |}.

(** The [for pattern in patterns] loop of [_detect_testing]. *)
Fixpoint _detect_testing_loop (project_path : string)
    (patterns : list string) : M W bool :=
  match patterns with
  | [] => ret false
  | pattern :: rest =>
      found <- _file_exists project_path pattern ;;
      if (found : bool) then ret true
      else _detect_testing_loop project_path rest
  end.

Definition _detect_testing (project_path language : string) : M W bool :=
  _detect_testing_loop project_path (test_patterns language).

Definition _detect_build_tools (project_path : string)
    (project_info : ProjectInfo) : M W (list string) :=
  let tools : list string := [] in
  webpack <- _file_exists project_path "webpack.config.js" ;;
  let tools := if (webpack : bool) then (tools ++ ["webpack"])%list else tools in
  vite <- _file_exists project_path "vite.config.js" ;;
  let tools := if (vite : bool) then (tools ++ ["vite"])%list else tools in
  docker <- _file_exists project_path "Dockerfile" ;;
  let tools := if (docker : bool) then (tools ++ ["docker"])%list else tools in
  ret tools.

Definition _detect_deployment (project_path : string)
    (project_info : ProjectInfo) : M W (list string) :=
  let strategies : list string := [] in
  docker <- _file_exists project_path "Dockerfile" ;;
  let strategies :=
    if (docker : bool) then (strategies ++ ["docker"])%list else strategies in
  k8s <- orM (_file_exists project_path "k8s")
             (_file_exists project_path "kubernetes") ;;
  let strategies :=
    if (k8s : bool) then (strategies ++ ["kubernetes"])%list else strategies in
  ret strategies.

(** The dict [detect] starts from.  The source stores the placeholder
    string ['unknown'] under ['structure'] until [_analyze_structure]
    replaces it, and nothing reads the key in between; the record holds the
    flags, all unset.  The key ['type'] is absent. *)
Definition initial_project_info (project_path : string) : ProjectInfo :=
  {| path := project_path;
     language := "unknown";
     framework := Some "unknown";
     type := None;
     structure := {| monorepo := false; microservices := false;
                     layered := false; modular := false;
                     dockerized := false |};
     complexity := "low";
     dependencies := [];
     testing := false;
     build_tools := [];
     deployment := [] |}.

(** [detect].  Its [except] clause prints the error and raises it again;
    console output is not part of the world. *)
Definition detect (project_path : string) : M W ProjectInfo :=
  let project_info := initial_project_info project_path in
  try_except
    (package_json <- _read_package_json project_path ;;
     requirements_txt <- _read_requirements_txt project_path ;;
     pom_xml <- _read_pom_xml project_path ;;
     go_mod <- _read_go_mod project_path ;;
     composer_json <- _read_composer_json project_path ;;
     csproj <- _read_csproj project_path ;;
     detection <- _detect_language_and_framework project_path
                    {| package_json := package_json;
                       requirements_txt := requirements_txt;
                       pom_xml := pom_xml;
                       go_mod := go_mod;
                       composer_json := composer_json;
                       csproj := csproj |} ;;
     let project_info := update_detection project_info detection in
     s <- _analyze_structure project_path (language project_info) ;;
     let project_info := set_structure project_info s in
     let project_info :=
       set_complexity project_info (_assess_complexity project_info) in
     t <- _detect_testing project_path (language project_info) ;;
     let project_info := set_testing project_info t in
     tools <- _detect_build_tools project_path project_info ;;
     let project_info := set_build_tools project_info tools in
     strategies <- _detect_deployment project_path project_info ;;
     let project_info := set_deployment project_info strategies in
     ret project_info)
    (fun error => raise error).
End WithWorld.

End ProjectDetector.

(** * The generation config *)

Module Config.

(** The ['deployment'] dict; a field is [None] when its key is absent. *)
Record Deployment : Type := {
  enabled : option bool;
  strategy : option string;
  imageName : option string
}.

(** The [config] dict.  [platform] and [deployment] are [None] when the key
    is absent; [output_dir] is [None] when the key is absent and [Some None]
    when it holds Python's [None] (as the command line passes it when no
    [--output] is given).  The ['security'] and ['testing'] entries are never
    read by the classes below. *)
Record t : Type := {
  platform : option string;
  output_dir : option (option string);
  deployment : option Deployment
}.

(** [config.get('deployment', {})]. *)
Definition get_deployment (config : t) : Deployment :=
  match deployment config with
  | Some d => d
  | None => {| enabled := None; strategy := None; imageName := None |}
  end.

(** The truth value of [config.get('deployment', {}).get('enabled')]. *)
Definition deployment_enabled (config : t) : bool :=
  match enabled (get_deployment config) with
  | Some b => b
  | None => false
  end.

End Config.

(** * class PipelineGenerator *)

Module PipelineGenerator.

(** The dict a template returns. *)
Record PipelineDoc : Type := {
  content : string;
  format : string;
  filename : string
}.

(** The dict [generate] returns: the template's entries, then
    ['output_file'] and ['platform']. *)
Record Generated : Type := {
  pipeline : PipelineDoc;
  output_file : string;
  platform : string
}.

(** Step dicts. *)
Definition step_run (name run : string) : yaml :=
  YMap [("name", YStr name); ("run", YStr run)].

Definition step_uses (name uses : string) (with_ : list (string * string)) : yaml :=
  YMap [("name", YStr name); ("uses", YStr uses);
        ("with", YMap (map (fun kv => (fst kv, YStr (snd kv))) with_))].

Definition _get_language_setup_steps (project_info : ProjectInfo) : list yaml :=
  let language := language project_info in
  if language =? "javascript" then
    [step_uses "Setup Node.js" "actions/setup-node@v4"
       [("node-version", "18"); ("cache", "npm")]]
  else if language =? "python" then
    [step_uses "Setup Python" "actions/setup-python@v4"
       [("python-version", "3.9")]]
  else if language =? "typescript" then
    [step_uses "Setup Node.js" "actions/setup-node@v4"
       [("node-version", "18"); ("cache", "npm")]]
  else if language =? "c" then
    [step_run "Setup C environment"
       "sudo apt-get update && sudo apt-get install -y build-essential gcc make"]
  else if language =? "java" then
    [step_uses "Setup Java" "actions/setup-java@v3"
       [("java-version", "17"); ("distribution", "temurin")]]
  else if language =? "go" then
    [step_uses "Setup Go" "actions/setup-go@v4" [("go-version", "1.21")]]
  else if language =? "csharp" then
    [step_uses "Setup .NET" "actions/setup-dotnet@v3" [("dotnet-version", "6.0")]]
  else [].

Definition _get_dependency_install_steps (project_info : ProjectInfo) : list yaml :=
  let language := language project_info in
  if (language =? "javascript") || (language =? "typescript") then
    [step_run "Install dependencies" "npm ci"]
  else if language =? "python" then
    [step_run "Install dependencies" "pip install -r requirements.txt"]
  else if language =? "java" then
    [step_run "Install dependencies" "mvn dependency:resolve"]
  else if language =? "go" then
    [step_run "Install dependencies" "go mod download"]
  else if language =? "csharp" then
    [step_run "Install dependencies" "dotnet restore"]
  else [].

Definition _get_test_steps (project_info : ProjectInfo) : list yaml :=
  let language := language project_info in
  if (language =? "javascript") || (language =? "typescript") then
    [step_run "Run tests" "npm test"]
  else if language =? "python" then
    [step_run "Run tests" "python -m pytest"]
  else if language =? "java" then
    [step_run "Run tests" "mvn test"]
  else if language =? "go" then
    [step_run "Run tests" "go test ./..."]
  else if language =? "csharp" then
    [step_run "Run tests" "dotnet test"]
  else [].

(** [framework in ['react', 'vue', 'typescript']]. *)
Definition framework_builds (framework : option string) : bool :=
  match framework with
  | Some f => (f =? "react") || (f =? "vue") || (f =? "typescript")
  | None => false
  end.

Definition _get_build_steps (project_info : ProjectInfo) : list yaml :=
  let language := language project_info in
  let framework := framework project_info in
  if (language =? "javascript") || (language =? "typescript") then
    if framework_builds framework then [step_run "Build" "npm run build"]
    else []
  else if language =? "java" then [step_run "Build" "mvn package"]
  else if language =? "go" then [step_run "Build" "go build -o app ./..."]
  else if language =? "csharp" then [step_run "Build" "dotnet build"]
  else if language =? "c" then
    [step_run "Build"
       ("make || gcc -o app *.c || echo " ++ dq ++ "No standard build found" ++ dq)]
  else [].

Definition _get_docker_build_steps (project_info : ProjectInfo) : list yaml :=
  [step_run "Build Docker image" "docker build -t myapp:${{ github.sha }} .";
   step_run "Test Docker image"
     ("docker run --rm myapp:${{ github.sha }} --version || echo "
        ++ dq ++ "No version flag" ++ dq)].

Definition _get_docker_deploy_steps (project_info : ProjectInfo)
    (config : Config.t) : list yaml :=
  let image_name :=
    match Config.imageName (Config.get_deployment config) with
    | Some n => n
    | None => "myapp"
    end in
  [step_run "Build Docker image"
     ("docker build -t " ++ image_name ++ ":${{ github.sha }} .");
   step_run "Push to registry"
     ("docker push " ++ image_name ++ ":${{ github.sha }}")].

Definition _get_kubernetes_deploy_steps (project_info : ProjectInfo)
    (config : Config.t) : list yaml :=
  [step_run "Deploy to Kubernetes" "kubectl apply -f k8s/"].

Definition _generate_build_steps (project_info : ProjectInfo)
    (config : Config.t) : list yaml :=
  let steps := [YMap [("name", YStr "Checkout");
                      ("uses", YStr "actions/checkout@v4")]] in
  let steps := (steps ++ _get_language_setup_steps project_info)%list in
  let steps := (steps ++ _get_dependency_install_steps project_info)%list in
  let steps :=
    if testing project_info
    then (steps ++ _get_test_steps project_info)%list else steps in
  let steps := (steps ++ _get_build_steps project_info)%list in
  let steps :=
    if dockerized (structure project_info)
    then (steps ++ _get_docker_build_steps project_info)%list else steps in
  steps.

(** [config.get('deployment', {}).get('strategy') == s]. *)
Definition strategy_is (config : Config.t) (s : string) : bool :=
  match Config.strategy (Config.get_deployment config) with
  | Some x => x =? s
  | None => false
  end.

Definition _generate_deploy_steps (project_info : ProjectInfo)
    (config : Config.t) : list yaml :=
  let steps : list yaml := [] in
  if strategy_is config "docker" then
    (steps ++ _get_docker_deploy_steps project_info config)%list
  else if strategy_is config "kubernetes" then
    (steps ++ _get_kubernetes_deploy_steps project_info config)%list
  else steps.

Definition _get_gitlab_variables (project_info : ProjectInfo)
    (config : Config.t) : yaml :=
  YMap [("NODE_VERSION", YStr "18");
        ("PYTHON_VERSION", YStr "3.9");
        ("JAVA_VERSION", YStr "17")].

Definition _get_gitlab_script (stage : string) (project_info : ProjectInfo)
  : list string :=
  let language := language project_info in
  let unknown_stage := ["echo " ++ dq ++ "Unknown stage" ++ dq] in
  if stage =? "build" then
    if language =? "javascript" then ["npm ci"; "npm run build"]
    else if language =? "python" then ["pip install -r requirements.txt"]
    else if language =? "java" then ["mvn clean package"]
    else if language =? "go" then ["go mod download"; "go build ./..."]
    else if language =? "csharp" then ["dotnet restore"; "dotnet build"]
    else unknown_stage
  else if stage =? "test" then
    if language =? "javascript" then ["npm test"]
    else if language =? "python" then ["python -m pytest"]
    else if language =? "java" then ["mvn test"]
    else if language =? "go" then ["go test ./..."]
    else if language =? "csharp" then ["dotnet test"]
    else unknown_stage
  else if stage =? "deploy" then
    ["echo " ++ dq ++ "Deploy script would go here" ++ dq]
  else unknown_stage.

Definition _get_gitlab_image (project_info : ProjectInfo) : string :=
  let language := language project_info in
  if language =? "javascript" then "node:18"
  else if language =? "python" then "python:3.9"
  else if language =? "java" then "openjdk:17"
  else if language =? "go" then "golang:1.21"
  else if language =? "csharp" then "mcr.microsoft.com/dotnet/sdk:6.0"
  else "ubuntu:latest".

Definition _generate_gitlab_job (stage : string) (project_info : ProjectInfo)
    (config : Config.t) : yaml :=
  YMap [("stage", YStr stage);
        ("script", YList (map YStr (_get_gitlab_script stage project_info)));
        ("image", YStr (_get_gitlab_image project_info))].

Definition _generate_jenkins_stages (project_info : ProjectInfo)
    (config : Config.t) : list yaml :=
  [YMap [("stage", YStr "Build");
         ("steps", YList [YMap [("sh", YStr ("echo " ++ dq ++ "Build step" ++ dq))]])];
   YMap [("stage", YStr "Test");
         ("steps", YList [YMap [("sh", YStr ("echo " ++ dq ++ "Test step" ++ dq))]])]].

Definition _get_jenkins_post_actions (project_info : ProjectInfo)
    (config : Config.t) : yaml :=
  YMap [("always",
         YList [YMap [("publishTestResults",
                       YMap [("testResultsPattern", YStr "**/test-results.xml")])]])].

(** The dict [workflow] that [_generate_github_actions] serialises. *)
Definition github_actions_workflow (project_info : ProjectInfo)
    (config : Config.t) : yaml :=
  let name :=
    match framework project_info with
    | Some f => f
    | None => "None"
    end ++ " CI/CD" in
  let jobs :=
    [("build", YMap [("runs-on", YStr "ubuntu-latest");
                     ("steps", YList (_generate_build_steps project_info config))])] in
  let jobs :=
    if Config.deployment_enabled config then
      (jobs ++
       [("deploy",
         YMap [("runs-on", YStr "ubuntu-latest");
               ("needs", YStr "build");
               ("if", YStr "github.ref == 'refs/heads/main' && github.event_name == 'push'");
               ("steps", YList (_generate_deploy_steps project_info config))])])%list
    else jobs in
  YMap [("name", YStr name);
        ("on", YMap [("push",
                      YMap [("branches",
                             YList [YStr "main"; YStr "master"; YStr "develop"])]);
                     ("pull_request",
                      YMap [("branches", YList [YStr "main"; YStr "master"])])]);
        ("jobs", YMap jobs)].

(** The dict [pipeline] that [_generate_gitlab_ci] serialises. *)
Definition gitlab_ci_pipeline (project_info : ProjectInfo)
    (config : Config.t) : yaml :=
  let pipeline :=
    [("stages", YList [YStr "build"; YStr "test"; YStr "deploy"]);
     ("variables", _get_gitlab_variables project_info config)] in
  let pipeline :=
    (pipeline ++ [("build", _generate_gitlab_job "build" project_info config)])%list in
  let pipeline :=
    (pipeline ++ [("test", _generate_gitlab_job "test" project_info config)])%list in
  let pipeline :=
    if Config.deployment_enabled config then
      (pipeline ++
       [("deploy", _generate_gitlab_job "deploy" project_info config)])%list
    else pipeline in
  YMap pipeline.

(** The dict [pipeline] that [_generate_jenkins] serialises. *)
Definition jenkins_pipeline (project_info : ProjectInfo)
    (config : Config.t) : yaml :=
  YMap [("pipeline",
         YMap [("agent", YStr "any");
               ("stages", YList (_generate_jenkins_stages project_info config));
               ("post", _get_jenkins_post_actions project_info config)])].

Section WithWorld.
Context {W : Type} {FS : FileSystem W} {L : PyLib}.

Definition _generate_github_actions (project_info : ProjectInfo)
    (config : Config.t) : PipelineDoc :=
  {| content := yaml_dump (github_actions_workflow project_info config);
     format := "yaml";
     filename := ".github/workflows/ci.yml" |}.

Definition _generate_gitlab_ci (project_info : ProjectInfo)
    (config : Config.t) : PipelineDoc :=
  {| content := yaml_dump (gitlab_ci_pipeline project_info config);
     format := "yaml";
     filename := ".gitlab-ci.yml" |}.

Definition _generate_jenkins (project_info : ProjectInfo)
    (config : Config.t) : PipelineDoc :=
  {| content := yaml_dump (jenkins_pipeline project_info config);
     format := "yaml";
     filename := "Jenkinsfile" |}.

(** [self.templates.get(platform)]. *)
Definition templates (platform : string)
  : option (ProjectInfo -> Config.t -> PipelineDoc) :=
  if platform =? "github-actions" then Some _generate_github_actions
  else if platform =? "gitlab-ci" then Some _generate_gitlab_ci
  else if platform =? "jenkins" then Some _generate_jenkins
  else None.

(** The local variable [output_path] of [_save_pipeline]. *)
Definition output_path_of (pipeline : PipelineDoc)
    (project_info : ProjectInfo) (config : Config.t) : string :=
  let output_dir :=
    match Config.output_dir config with
    | Some v => v
    | None => Some (path project_info)
    end in
  let output_dir :=
    match output_dir with
    | Some d => if d =? "" then "." else d
    | None => "."
    end in
  path_join output_dir (filename pipeline).

Definition _save_pipeline (pipeline : PipelineDoc)
    (project_info : ProjectInfo) (config : Config.t) : M W string :=
  let output_path := output_path_of pipeline project_info config in
  _ <- makedirs (dirname output_path) ;;
  _ <- write_file output_path (content pipeline) ;;
  ret output_path.

(** The message of the [ValueError] raised for an unknown platform. *)
Definition unsupported_platform (platform : string) : exn :=
  ValueError ("Неподдерживаемая платформа: " ++ platform).

Definition generate (project_info : ProjectInfo) (config : Config.t)
  : M W Generated :=
  let platform :=
    match Config.platform config with
    | Some p => p
    | None => "github-actions"
    end in
  match templates platform with
  | None => raise (unsupported_platform platform)
  | Some template =>
      let pipeline := template project_info config in
      output_path <- _save_pipeline pipeline project_info config ;;
      ret {| pipeline := pipeline;
             output_file := output_path;
             platform := platform |}
  end.
End WithWorld.

End PipelineGenerator.

(** * class AmazingAutomata *)

Module AmazingAutomata.

(** A recommendation dict. *)
Record Recommendation : Type := {
  rec_type : string;
  message : string;
  priority : string
}.

Definition get_refactoring_recommendations (project_info : ProjectInfo)
  : list Recommendation :=
  let recommendations : list Recommendation := [] in
  let recommendations :=
    if complexity project_info =? "high" then
      (recommendations ++
       [{| rec_type := "complexity";
           message := "Проект имеет высокую сложность. Рекомендуется разбить на микросервисы.";
           priority := "high" |}])%list
    else recommendations in
  let recommendations :=
    if (100 <? length (dependencies project_info))%nat then
      (recommendations ++
       [{| rec_type := "dependencies";
           message := "Большое количество зависимостей. Рассмотрите возможность оптимизации.";
           priority := "medium" |}])%list
    else recommendations in
  let recommendations :=
    if negb (testing project_info) then
      (recommendations ++
       [{| rec_type := "testing";
           message := "Не обнаружены тесты. Рекомендуется добавить тестирование.";
           priority := "high" |}])%list
    else recommendations in
  recommendations.

Section WithWorld.
Context {W : Type} {FS : FileSystem W} {L : PyLib}.

(** [analyze_project]: detection, with console narration around it. *)
Definition analyze_project (project_path : string) : M W ProjectInfo :=
  try_except
    (project_info <- ProjectDetector.detect project_path ;;
     ret project_info)
    (fun error => raise error).

(** [generate_pipeline], with [self.config] as an argument. *)
Definition generate_pipeline (config : Config.t) (project_path : string)
    (project_info : ProjectInfo) : M W PipelineGenerator.Generated :=
  try_except
    (pipeline <- PipelineGenerator.generate project_info config ;;
     ret pipeline)
    (fun error => raise error).
End WithWorld.

End AmazingAutomata.

(** * A scripted world, for running the program on concrete trees *)

Module Scripted.

(** A tree is described by what the program can observe of it: the text
    files it can open, the JSON files it can load, and the matches of each
    glob pattern under each root (a pattern that is not listed matches
    nothing).  Directories created and files written are recorded. *)
Record World : Type := {
  texts : list (string * string);
  jsons : list (string * json);
  globs : list (string * string * list string);
  made_dirs : list string;
  written : list (string * string)
}.

Fixpoint assoc {A : Type} (k : string) (l : list (string * A)) : option A :=
  match l with
  | [] => None
  | (k', v) :: rest => if k' =? k then Some v else assoc k rest
  end.

Fixpoint assoc2 {A : Type} (k1 k2 : string) (l : list (string * string * A))
  : option A :=
  match l with
  | [] => None
  | (k1', k2', v) :: rest =>
      if (k1' =? k1) && (k2' =? k2) then Some v else assoc2 k1 k2 rest
  end.

#[global] Instance file_system : FileSystem World := {
  fs_read p w :=
    match assoc p (written w) with
    | Some s => Some s
    | None => assoc p (texts w)
    end;
  fs_load_json p w := assoc p (jsons w);
  fs_glob root pattern w :=
    Some (match assoc2 root pattern (globs w) with Some l => l | None => [] end);
  fs_makedirs d w :=
    (true, {| texts := texts w; jsons := jsons w; globs := globs w;
              made_dirs := d :: made_dirs w; written := written w |});
  fs_write p s w :=
    (true, {| texts := texts w; jsons := jsons w; globs := globs w;
              made_dirs := made_dirs w; written := (p, s) :: written w |})
}.

(** ASCII versions of the string methods. *)
Definition lower_char (c : ascii) : ascii :=
  let n := nat_of_ascii c in
  if ((65 <=? n) && (n <=? 90))%nat then ascii_of_nat (n + 32) else c.

Fixpoint lower (s : string) : string :=
  match s with
  | EmptyString => EmptyString
  | String c rest => String (lower_char c) (lower rest)
  end.

Definition is_space (c : ascii) : bool :=
  let n := nat_of_ascii c in
  ((n =? 32) || ((9 <=? n) && (n <=? 13)))%nat.

Fixpoint lstrip (s : string) : string :=
  match s with
  | EmptyString => EmptyString
  | String c rest => if is_space c then lstrip rest else s
  end.

Fixpoint rstrip (s : string) : string :=
  match s with
  | EmptyString => EmptyString
  | String c rest =>
      match rstrip rest with
      | EmptyString => if is_space c then EmptyString else String c EmptyString
      | r => String c r
      end
  end.

(** A flow-style rendering of a document. *)
Fixpoint render (y : yaml) : string :=
  match y with
  | YStr s => s
  | YList items =>
      "[" ++ (fix go (l : list yaml) : string :=
                match l with
                | [] => ""
                | x :: rest => render x ++ ", " ++ go rest
                end) items ++ "]"
  | YMap entries =>
      "{" ++ (fix go (l : list (string * yaml)) : string :=
                match l with
                | [] => ""
                | (k, v) :: rest => k ++ ": " ++ render v ++ ", " ++ go rest
                end) entries ++ "}"
  end.

#[global] Instance py_lib : PyLib := {
  str_lower := lower;
  str_strip s := lstrip (rstrip s);
  yaml_dump := render
}.

(** An empty directory [proj]. *)
Definition empty_tree : World :=
  {| texts := []; jsons := []; globs := []; made_dirs := []; written := [] |}.

(** A directory [proj] holding a [services] directory and a test file
    [a.test.js], and nothing else. *)
Definition services_with_tests : World :=
  {| texts := [];
     jsons := [];
     globs := [("proj", "services", ["proj/services"]);
               ("proj", "**/*.test.js", ["proj/a.test.js"])];
     made_dirs := [];
     written := [] |}.

(** A directory [proj] holding only a [package.json] that lists [react]
    among its dependencies and [typescript] among its development
    dependencies. *)
Definition ts_react_manifest : json :=
  JObj [("name", JStr "app");
        ("dependencies", JObj [("react", JStr "^18.2.0")]);
        ("devDependencies", JObj [("typescript", JStr "^5.0.0")])].

Definition ts_react_tree : World :=
  {| texts := [];
     jsons := [("proj/package.json", ts_react_manifest)];
     globs := [("proj", "package.json", ["proj/package.json"])];
     made_dirs := [];
     written := [] |}.

End Scripted.

(** * Reading generated documents *)

Module Doc.

Fixpoint lookup (k : string) (entries : list (string * yaml)) : option yaml :=
  match entries with
  | [] => None
  | (k', v) :: rest => if k' =? k then Some v else lookup k rest
  end.

(** [y[k]] when [y] is a dict that has the key. *)
Definition get (y : yaml) (k : string) : option yaml :=
  match y with
  | YMap entries => lookup k entries
  | _ => None
  end.

(** [k in y]. *)
Definition has (y : yaml) (k : string) : bool :=
  match get y k with Some _ => true | None => false end.

(** The items of [y[k]] when that is a list. *)
Definition items_at (y : yaml) (k : string) : list yaml :=
  match get y k with
  | Some (YList l) => l
  | _ => []
  end.

(** The dict each template serialises, by platform identifier. *)
Definition document (platform : string) (project_info : ProjectInfo)
    (config : Config.t) : option yaml :=
  if platform =? "github-actions" then
    Some (PipelineGenerator.github_actions_workflow project_info config)
  else if platform =? "gitlab-ci" then
    Some (PipelineGenerator.gitlab_ci_pipeline project_info config)
  else if platform =? "jenkins" then
    Some (PipelineGenerator.jenkins_pipeline project_info config)
  else None.

(** A Jenkins stage dict named [n]. *)
Definition stage_named (n : string) (stage : yaml) : bool :=
  match get stage "stage" with
  | Some (YStr s) => s =? n
  | _ => false
  end.

(** The document of the given platform has a deploy stage: a [deploy] job
    under [jobs] (GitHub Actions), a top-level [deploy] job (GitLab CI), a
    stage named [Deploy] or [deploy] (Jenkins). *)
Definition has_deploy_stage (platform : string) (doc : yaml) : bool :=
  if platform =? "github-actions" then
    match get doc "jobs" with
    | Some jobs => has jobs "deploy"
    | None => false
    end
  else if platform =? "gitlab-ci" then has doc "deploy"
  else if platform =? "jenkins" then
    match get doc "pipeline" with
    | Some p => existsb (fun st => stage_named "Deploy" st || stage_named "deploy" st)
                        (items_at p "stages")
    | None => false
    end
  else false.

(** The commands of the test stage of the step catalog. *)
Definition test_commands : list string :=
  ["npm test"; "python -m pytest"; "mvn test"; "go test ./..."; "dotnet test"].

Definition is_test_command (c : string) : bool :=
  existsb (String.eqb c) test_commands.

(** A step dict whose [run] entry invokes tests. *)
Definition runs_tests (step : yaml) : bool :=
  match get step "run" with
  | Some (YStr c) => is_test_command c
  | _ => false
  end.

(** The steps of job [job] of a GitHub Actions workflow. *)
Definition github_steps (doc : yaml) (job : string) : list yaml :=
  match get doc "jobs" with
  | Some jobs =>
      match get jobs job with
      | Some j => items_at j "steps"
      | None => []
      end
  | None => []
  end.

(** The script lines of job [job] of a GitLab CI pipeline. *)
Definition gitlab_script (doc : yaml) (job : string) : list yaml :=
  match get doc job with
  | Some j => items_at j "script"
  | None => []
  end.

(** The [run] command of a step dict. *)
Definition run_of (step : yaml) : string :=
  match get step "run" with
  | Some (YStr c) => c
  | _ => ""
  end.

End Doc.

(** * Sample inputs *)

Module Sample.

(** A React front end for which detection found no test files. *)
Definition untested_js : ProjectInfo :=
  {| path := "proj";
     language := "javascript";
     framework := Some "react";
     type := Some "frontend";
     structure := {| monorepo := false; microservices := false;
                     layered := false; modular := false;
                     dockerized := false |};
     complexity := "low";
     dependencies := [];
     testing := false;
     build_tools := [];
     deployment := [] |}.

(** The profile of an empty directory [proj]. *)
Definition unknown_profile : ProjectInfo :=
  {| path := "proj";
     language := "unknown";
     framework := None;
     type := Some "unknown";
     structure := {| monorepo := false; microservices := false;
                     layered := false; modular := false;
                     dockerized := false |};
     complexity := "low";
     dependencies := [];
     testing := false;
     build_tools := [];
     deployment := [] |}.

(** The profile of a directory [proj] that holds a [services] directory and
    a test file. *)
Definition services_profile : ProjectInfo :=
  {| path := "proj";
     language := "unknown";
     framework := None;
     type := Some "unknown";
     structure := {| monorepo := false; microservices := true;
                     layered := false; modular := false;
                     dockerized := false |};
     complexity := "medium";
     dependencies := [];
     testing := true;
     build_tools := [];
     deployment := [] |}.

(** A profile with [n] dependencies and the given flags. *)
Definition scored (n : nat) (mono micro tested : bool) : ProjectInfo :=
  {| path := "proj";
     language := "javascript";
     framework := Some "react";
     type := Some "frontend";
     structure := {| monorepo := mono; microservices := micro;
                     layered := false; modular := false;
                     dockerized := false |};
     complexity := "low";
     dependencies := repeat "dep" n;
     testing := tested;
     build_tools := [];
     deployment := [] |}.

(** [{'platform': platform, 'output_dir': None, 'deployment': d}]. *)
Definition config (platform : string) (d : Config.Deployment) : Config.t :=
  {| Config.platform := Some platform;
     Config.output_dir := Some None;
     Config.deployment := Some d |}.

(** [{'enabled': True}], as the command line builds it for [--deploy]. *)
Definition deploy_enabled : Config.Deployment :=
  {| Config.enabled := Some true; Config.strategy := None;
     Config.imageName := None |}.

(** [{'enabled': True, 'strategy': 'docker', 'imageName': 'svc'}]. *)
Definition docker_svc : Config.Deployment :=
  {| Config.enabled := Some true; Config.strategy := Some "docker";
     Config.imageName := Some "svc" |}.

End Sample.

(** * Properties of effectful code *)

(** [m] leaves the world as it found it. *)
Definition read_only {W A : Type} (m : M W A) : Prop :=
  forall w, snd (m w) = w.

(** [m] returns a value, raises nothing and leaves the world as it found it. *)
Definition safe {W A : Type} (m : M W A) : Prop :=
  forall w, exists a, m w = (inr a, w).

(** The complexity label as the specification words it: an additive score
    over the dependency count and three flags, then two thresholds. *)
Definition complexity_of (deps : nat) (monorepo microservices testing : bool)
  : string :=
  let score :=
    ((if (50 <? deps)%nat then 2 else if (20 <? deps)%nat then 1 else 0)
     + (if monorepo then 2 else 0)
     + (if microservices then 2 else 0)
     + (if testing then 0 else 1))%Z in
  if (5 <=? score)%Z then "high"
  else if (3 <=? score)%Z then "medium"
  else "low".

(** What the readers of [detect] hand to the classifier in world [w]. *)
Definition manifests {W : Type} {FS : FileSystem W} {L : PyLib}
    (project_path : string) (w : W) : ManifestFiles :=
  {| package_json := fs_load_json (path_join project_path "package.json") w;
     requirements_txt :=
       option_map
         (fun f => map str_strip
                     (filter (fun line => negb (str_strip line =? "")
                                          && negb (startswith line "#"))
                             (file_lines f)))
         (fs_read (path_join project_path "requirements.txt") w);
     pom_xml := fs_read (path_join project_path "pom.xml") w;
     go_mod := fs_read (path_join project_path "go.mod") w;
     composer_json := fs_load_json (path_join project_path "composer.json") w;
     csproj :=
       match fs_glob project_path "*.csproj" w with
       | Some (first :: _) => fs_read first w
       | _ => None
       end |}.

(** The profile [detect] assembles from the classifier's answer [d] and the
    answers [s], [t], [tools], [strategies] of the four analyzers. *)
Definition assembled (project_path : string) (d : Detection) (s : Structure)
    (t : bool) (tools strategies : list string) : ProjectInfo :=
  let info := set_structure
                (update_detection
                   (ProjectDetector.initial_project_info project_path) d) s in
  set_deployment
    (set_build_tools
       (set_testing
          (set_complexity info (ProjectDetector._assess_complexity info)) t)
       tools)
    strategies.

(** The fallback of the classifier's decision list. *)
Definition fallback : Detection :=
  {| det_language := "unknown"; det_framework := None;
     det_type := "unknown" |}.

(** The answer of the classifier's TypeScript rule. *)
Definition typescript_backend : Detection :=
  {| det_language := "typescript"; det_framework := Some "typescript";
     det_type := "backend" |}.

(** [_file_exists] as a function of the world. *)
Definition exists_in {W : Type} {FS : FileSystem W}
    (project_path pattern : string) (w : W) : bool :=
  match fs_glob project_path pattern w with
  | Some (_ :: _) => true
  | _ => false
  end.

(** No rule of the classifier's decision list matches the tree at
    [project_path] in world [w]. *)
Definition no_rule_matches {W : Type} {FS : FileSystem W} {L : PyLib}
    (project_path : string) (w : W) : Prop :=
  let files := manifests project_path w in
  match package_json files with
  | Some v => truthy v = false \/ ProjectDetector._package_json_rules v = inr None
  | None => True
  end
  /\ truthy_list (requirements_txt files) = false
  /\ exists_in project_path "requirements.txt" w = false
  /\ exists_in project_path "pyproject.toml" w = false
  /\ truthy_str (pom_xml files) = false
  /\ exists_in project_path "pom.xml" w = false
  /\ exists_in project_path "build.gradle" w = false
  /\ truthy_str (go_mod files) = false
  /\ exists_in project_path "go.mod" w = false
  /\ exists_in project_path "Makefile" w = false
  /\ exists_in project_path "CMakeLists.txt" w = false
  /\ exists_in project_path "configure" w = false
  /\ exists_in project_path "*.c" w = false
  /\ exists_in project_path "*.h" w = false
  /\ truthy_str (csproj files) = false
  /\ exists_in project_path "*.csproj" w = false
  /\ truthy_json (composer_json files) = false
  /\ exists_in project_path "composer.json" w = false.

(** * Further vocabulary *)

(** [m], run in world [w], returns a value and leaves [w] as it found it. *)
Definition returns_at {W A : Type} (w : W) (m : M W A) : Prop :=
  exists a, m w = (inr a, w).

(** Every value [m] returns satisfies [Q]. *)
Definition ensures {W A : Type} (m : M W A) (Q : A -> Prop) : Prop :=
  forall w a w', m w = (inr a, w') -> Q a.

(** [isinstance(v, dict)]. *)
Definition is_dict (v : json) : bool :=
  match v with
  | JObj _ => true
  | _ => false
  end.

(** Every (language, framework, type) triple written in
    [_detect_language_and_framework] and its framework probes. *)
Definition classifications : list (string * option string * string) :=
  [("typescript", Some "typescript", "backend");
   ("javascript", Some "react-native", "mobile");
   ("javascript", Some "react", "frontend");
   ("javascript", Some "vue", "frontend");
   ("typescript", Some "angular", "frontend");
   ("javascript", Some "nodejs", "backend");
   ("javascript", Some "express", "backend");
   ("python", Some "django", "backend");
   ("python", Some "flask", "backend");
   ("python", Some "fastapi", "backend");
   ("python", Some "unknown", "backend");
   ("java", Some "spring-boot", "backend");
   ("java", Some "unknown", "backend");
   ("go", Some "gin", "backend");
   ("go", Some "echo", "backend");
   ("go", Some "fiber", "backend");
   ("go", Some "unknown", "backend");
   ("c", Some "unknown", "backend");
   ("csharp", Some "aspnet-core", "backend");
   ("csharp", Some "unknown", "backend");
   ("php", Some "laravel", "backend");
   ("php", Some "symfony", "backend");
   ("php", Some "unknown", "backend");
   ("unknown", None, "unknown")].

(** The manifest bundle with the package manifest taken away. *)
Definition without_package (files : ManifestFiles) : ManifestFiles :=
  {| package_json := None;
     requirements_txt := requirements_txt files;
     pom_xml := pom_xml files;
     go_mod := go_mod files;
     composer_json := composer_json files;
     csproj := csproj files |}.

Section Observations.
Context {W : Type} {FS : FileSystem W}.

(** What [_analyze_structure] finds in world [w]. *)
Definition structure_of (project_path : string) (w : W) : Structure :=
  {| monorepo := exists_in project_path "lerna.json" w
                 || (exists_in project_path "nx.json" w
                     || exists_in project_path "rush.json" w);
     microservices := exists_in project_path "services" w
                      || exists_in project_path "microservices" w;
     layered := false;
     modular := false;
     dockerized := exists_in project_path "Dockerfile" w
                   || (exists_in project_path "docker-compose.yml" w
                       || exists_in project_path "docker-compose.yaml" w) |}.

(** What [_detect_testing] finds in world [w]. *)
Definition testing_of (project_path language : string) (w : W) : bool :=
  existsb (fun pattern => exists_in project_path pattern w)
          (ProjectDetector.test_patterns language).

(** What [_detect_build_tools] finds in world [w]. *)
Definition tools_of (project_path : string) (w : W) : list string :=
  ((if exists_in project_path "webpack.config.js" w then ["webpack"] else [])
   ++ (if exists_in project_path "vite.config.js" w then ["vite"] else [])
   ++ (if exists_in project_path "Dockerfile" w then ["docker"] else []))%list.

(** What [_detect_deployment] finds in world [w]. *)
Definition strategies_of (project_path : string) (w : W) : list string :=
  ((if exists_in project_path "Dockerfile" w then ["docker"] else [])
   ++ (if exists_in project_path "k8s" w
          || exists_in project_path "kubernetes" w
       then ["kubernetes"] else []))%list.
End Observations.

(** * The command line *)

Module Main.

(** The [config] dict that [main] builds from its arguments: [platform] is
    [--platform] (default ['github-actions']), [output] is [--output]
    ([None] when not given) and [deploy] is the [--deploy] switch.  The
    ['security'] and ['testing'] entries are left out, as in [Config.t]. *)
Definition config (platform : string) (output : option string) (deploy : bool)
  : Config.t :=
  {| Config.platform := Some platform;
     Config.output_dir := Some output;
     Config.deployment :=
       Some {| Config.enabled := Some deploy;
               Config.strategy := None;
               Config.imageName := None |} |}.

End Main.

(** * More sample trees and profiles *)

Module Fixtures.

(** A directory [proj] whose [package.json] holds the JSON array [[1]]. *)
Definition array_manifest_tree : Scripted.World :=
  {| Scripted.texts := [];
     Scripted.jsons := [("proj/package.json", JArr [JNum 1])];
     Scripted.globs := [("proj", "package.json", ["proj/package.json"])];
     Scripted.made_dirs := [];
     Scripted.written := [] |}.

(** A [package.json] whose [dependencies] entry is a list. *)
Definition list_deps_manifest : json :=
  JObj [("name", JStr "app"); ("dependencies", JArr [JStr "react"])].

Definition list_deps_tree : Scripted.World :=
  {| Scripted.texts := [];
     Scripted.jsons := [("proj/package.json", list_deps_manifest)];
     Scripted.globs := [("proj", "package.json", ["proj/package.json"])];
     Scripted.made_dirs := [];
     Scripted.written := [] |}.

(** A [package.json] that matches no rule, beside a [requirements.txt] and
    a [manage.py]. *)
Definition lodash_manifest : json :=
  JObj [("name", JStr "tools");
        ("dependencies", JObj [("lodash", JStr "^4.17.0")])].

Definition mixed_tree : Scripted.World :=
  {| Scripted.texts :=
       [("proj/requirements.txt", "django" ++ String (ascii_of_nat 10) "")];
     Scripted.jsons := [("proj/package.json", lodash_manifest)];
     Scripted.globs := [("proj", "package.json", ["proj/package.json"]);
                        ("proj", "requirements.txt", ["proj/requirements.txt"]);
                        ("proj", "manage.py", ["proj/manage.py"])];
     Scripted.made_dirs := [];
     Scripted.written := [] |}.

(** A directory [proj] that holds a [Dockerfile], a [k8s] directory, both
    monorepo and microservices markers, and a Go module. *)
Definition docker_tree : Scripted.World :=
  {| Scripted.texts :=
       [("proj/go.mod", "module example.com/app require github.com/gin-gonic/gin v1.9.0")];
     Scripted.jsons := [];
     Scripted.globs := [("proj", "go.mod", ["proj/go.mod"]);
                        ("proj", "Dockerfile", ["proj/Dockerfile"]);
                        ("proj", "k8s", ["proj/k8s"]);
                        ("proj", "nx.json", ["proj/nx.json"]);
                        ("proj", "services", ["proj/services"]);
                        ("proj", "**/*_test.go", ["proj/pkg/a_test.go"])];
     Scripted.made_dirs := [];
     Scripted.written := [] |}.

(** A world in which no directory can be created. *)
Record ReadOnlyWorld : Type := { tree : Scripted.World }.

#[global] Instance read_only_file_system : FileSystem ReadOnlyWorld := {
  fs_read p w := fs_read p (tree w);
  fs_load_json p w := fs_load_json p (tree w);
  fs_glob root pattern w := fs_glob root pattern (tree w);
  fs_makedirs d w := (false, w);
  fs_write p s w := (false, w)
}.

(** A TypeScript back end, as the classifier's first rule reports it. *)
Definition ts_profile : ProjectInfo :=
  {| path := "proj";
     language := "typescript";
     framework := Some "typescript";
     type := Some "backend";
     structure := {| monorepo := false; microservices := false;
                     layered := false; modular := false;
                     dockerized := false |};
     complexity := "low";
     dependencies := [];
     testing := true;
     build_tools := [];
     deployment := [] |}.

End Fixtures.

(** * Lemmas on the monad *)

Section MonadLemmas.
Context {W : Type}.

Lemma bind_run {A B : Type} (m : M W A) (k : A -> M W B) w a w' :
  m w = (inr a, w') -> bind m k w = k a w'.
Proof. intros H. unfold bind. rewrite H. reflexivity. Qed.

Lemma bind_raise {A B : Type} (m : M W A) (k : A -> M W B) w e w' :
  m w = (inl e, w') -> bind m k w = (inl e, w').
Proof. intros H. unfold bind. rewrite H. reflexivity. Qed.

Lemma try_reraise {A : Type} (m : M W A) w :
  try_except m (fun e => raise e) w = m w.
Proof.
  unfold try_except, raise. destruct (m w) as [[e | a] w']; reflexivity.
Qed.

Lemma safe_ret {A : Type} (a : A) : safe (ret (W := W) a).
Proof. intros w. exists a. reflexivity. Qed.

Lemma safe_bind {A B : Type} (m : M W A) (k : A -> M W B) :
  safe m -> (forall a, safe (k a)) -> safe (bind m k).
Proof.
  intros Hm Hk w. destruct (Hm w) as [a Ha].
  rewrite (bind_run _ _ _ _ _ Ha). apply Hk.
Qed.

Lemma safe_orM (a b : M W bool) : safe a -> safe b -> safe (orM a b).
Proof.
  intros Ha Hb. apply safe_bind; [assumption |].
  intros [|]; [apply safe_ret | assumption].
Qed.

Lemma safe_read_only {A : Type} (m : M W A) : safe m -> read_only m.
Proof. intros H w. destruct (H w) as [a Ha]. rewrite Ha. reflexivity. Qed.

Lemma read_only_ret {A : Type} (a : A) : read_only (ret (W := W) a).
Proof. intros w. reflexivity. Qed.

Lemma read_only_raise {A : Type} (e : exn) : read_only (raise (W := W) (A := A) e).
Proof. intros w. reflexivity. Qed.

Lemma read_only_liftE {A : Type} (r : exn + A) : read_only (liftE (W := W) r).
Proof. intros w. reflexivity. Qed.

Lemma read_only_bind {A B : Type} (m : M W A) (k : A -> M W B) :
  read_only m -> (forall a, read_only (k a)) -> read_only (bind m k).
Proof.
  intros Hm Hk w. unfold bind. specialize (Hm w).
  destruct (m w) as [[e | a] w']; simpl in *; subst; [reflexivity | apply Hk].
Qed.

Lemma read_only_try {A : Type} (m : M W A) (h : exn -> M W A) :
  read_only m -> (forall e, read_only (h e)) -> read_only (try_except m h).
Proof.
  intros Hm Hh w. unfold try_except. specialize (Hm w).
  destruct (m w) as [[e | a] w']; simpl in *; subst; [apply Hh | reflexivity].
Qed.

Lemma read_only_orM (a b : M W bool) :
  read_only a -> read_only b -> read_only (orM a b).
Proof.
  intros Ha Hb. apply read_only_bind; [assumption |].
  intros [|]; [apply read_only_ret | assumption].
Qed.

(** A body that only reads, under a handler that always answers, always
    answers. *)
Lemma safe_try {A : Type} (m : M W A) (h : exn -> M W A) :
  read_only m -> (forall e, safe (h e)) -> safe (try_except m h).
Proof.
  intros Hm Hh w. unfold try_except. specialize (Hm w).
  destruct (m w) as [[e | a] w']; simpl in *; subst.
  - apply Hh.
  - exists a. reflexivity.
Qed.

(** Running a read-only computation twice gives the same answer twice. *)
Lemma read_only_rerun {A : Type} (m : M W A) w :
  read_only m -> snd (m w) = w /\ fst (m (snd (m w))) = fst (m w).
Proof. intros H. rewrite (H w). split; reflexivity. Qed.
End MonadLemmas.

Create HintDb effects.

#[export] Hint Resolve safe_ret safe_bind safe_orM safe_try : effects.
#[export] Hint Resolve read_only_ret read_only_raise read_only_liftE
  read_only_bind read_only_try read_only_orM : effects.

(** Decompose a goal [read_only m] or [safe m] along the syntax of [m]. *)
Ltac effects :=
  repeat first
    [ progress intros
    | solve [auto with effects]
    | apply safe_ret | apply read_only_ret | apply read_only_raise
    | apply read_only_liftE
    | apply safe_orM | apply read_only_orM
    | apply safe_bind | apply read_only_bind
    | apply safe_try | apply read_only_try
    | match goal with
      | |- read_only (if ?b then _ else _) => destruct b
      | |- safe (if ?b then _ else _) => destruct b
      | |- read_only (match ?x with _ => _ end) => destruct x
      | |- safe (match ?x with _ => _ end) => destruct x
      end ].

(** * Lemmas on the detector *)

Section DetectorLemmas.
Context {W : Type} {FS : FileSystem W} {L : PyLib}.
Import ProjectDetector.

Lemma read_only_read_file p : read_only (read_file (W := W) p).
Proof. intros w. unfold read_file. destruct (fs_read p w); reflexivity. Qed.

Lemma read_only_load_json_file p : read_only (load_json_file (W := W) p).
Proof.
  intros w. unfold load_json_file. destruct (fs_load_json p w); reflexivity.
Qed.

Lemma read_only_glob root pattern : read_only (glob (W := W) root pattern).
Proof.
  intros w. unfold glob. destruct (fs_glob root pattern w); reflexivity.
Qed.

Hint Resolve read_only_read_file read_only_load_json_file read_only_glob
  : effects.

Lemma _file_exists_run p pattern w :
  _file_exists p pattern w = (inr (exists_in p pattern w), w).
Proof.
  unfold _file_exists, exists_in, try_except, bind, glob, ret.
  destruct (fs_glob p pattern w) as [[| x l] |]; reflexivity.
Qed.

Lemma safe_file_exists p pattern : safe (_file_exists (W := W) p pattern).
Proof. intros w. eexists. apply _file_exists_run. Qed.

Hint Resolve safe_file_exists : effects.

Lemma _read_package_json_run p w :
  _read_package_json p w = (inr (package_json (manifests p w)), w).
Proof.
  unfold _read_package_json, try_except, bind, load_json_file, ret. simpl.
  destruct (fs_load_json (path_join p "package.json") w); reflexivity.
Qed.

Lemma _read_requirements_txt_run p w :
  _read_requirements_txt p w = (inr (requirements_txt (manifests p w)), w).
Proof.
  unfold _read_requirements_txt, try_except, bind, read_file, ret. simpl.
  destruct (fs_read (path_join p "requirements.txt") w); reflexivity.
Qed.

Lemma _read_pom_xml_run p w :
  _read_pom_xml p w = (inr (pom_xml (manifests p w)), w).
Proof.
  unfold _read_pom_xml, try_except, bind, read_file, ret. simpl.
  destruct (fs_read (path_join p "pom.xml") w); reflexivity.
Qed.

Lemma _read_go_mod_run p w :
  _read_go_mod p w = (inr (go_mod (manifests p w)), w).
Proof.
  unfold _read_go_mod, try_except, bind, read_file, ret. simpl.
  destruct (fs_read (path_join p "go.mod") w); reflexivity.
Qed.

Lemma _read_composer_json_run p w :
  _read_composer_json p w = (inr (composer_json (manifests p w)), w).
Proof.
  unfold _read_composer_json, try_except, bind, load_json_file, ret. simpl.
  destruct (fs_load_json (path_join p "composer.json") w); reflexivity.
Qed.

Lemma _read_csproj_run p w :
  _read_csproj p w = (inr (csproj (manifests p w)), w).
Proof.
  unfold _read_csproj, try_except, bind, glob, read_file, ret. simpl.
  destruct (fs_glob p "*.csproj" w) as [[| first l] |]; try reflexivity.
  destruct (fs_read first w); reflexivity.
Qed.

Lemma safe_read_go_mod p : safe (_read_go_mod (W := W) p).
Proof. intros w. eexists. apply _read_go_mod_run. Qed.

Lemma safe_read_composer_json p : safe (_read_composer_json (W := W) p).
Proof. intros w. eexists. apply _read_composer_json_run. Qed.

Hint Resolve safe_read_go_mod safe_read_composer_json : effects.

Lemma safe_detect_python_framework p :
  safe (_detect_python_framework (W := W) p).
Proof. unfold _detect_python_framework. effects. Qed.

Lemma safe_detect_java_framework p :
  safe (_detect_java_framework (W := W) p).
Proof. unfold _detect_java_framework. effects. Qed.

Lemma safe_detect_go_framework p : safe (_detect_go_framework (W := W) p).
Proof. unfold _detect_go_framework. effects. Qed.

Lemma safe_detect_csharp_framework p :
  safe (_detect_csharp_framework (W := W) p).
Proof. unfold _detect_csharp_framework. effects. Qed.

(** The PHP probe can raise (a [composer.json] that is not a dict), but it
    only reads. *)
Lemma read_only_detect_php_framework p :
  read_only (_detect_php_framework (W := W) p).
Proof.
  unfold _detect_php_framework.
  repeat first
    [ progress intros
    | apply read_only_ret | apply read_only_liftE
    | apply safe_read_only; solve [auto with effects]
    | apply read_only_bind
    | match goal with
      | |- read_only (if ?b then _ else _) => destruct b
      | |- read_only (match ?x with _ => _ end) => destruct x
      end ].
Qed.

Lemma read_only_detect_language_and_framework p files :
  read_only (_detect_language_and_framework (W := W) p files).
Proof.
  unfold _detect_language_and_framework.
  pose proof safe_detect_python_framework.
  pose proof safe_detect_java_framework.
  pose proof safe_detect_go_framework.
  pose proof safe_detect_csharp_framework.
  pose proof read_only_detect_php_framework.
  repeat first
    [ progress intros
    | apply read_only_ret | apply read_only_liftE
    | assumption
    | apply safe_read_only; solve [auto with effects]
    | apply read_only_bind
    | match goal with
      | |- read_only (if ?b then _ else _) => destruct b
      | |- read_only (match ?x with _ => _ end) => destruct x
      end ].
Qed.

Lemma _analyze_structure_run p language w :
  exists mono micro docker,
    _analyze_structure p language w =
    (inr {| monorepo := mono; microservices := micro; layered := false;
            modular := false; dockerized := docker |}, w).
Proof.
  unfold _analyze_structure.
  assert (Hor : forall a b : M W bool, safe a -> safe b -> safe (orM a b))
    by apply safe_orM.
  destruct (Hor (_file_exists p "lerna.json")
                (orM (_file_exists p "nx.json") (_file_exists p "rush.json"))
                ltac:(effects) ltac:(effects) w) as [mono Hmono].
  destruct (Hor (_file_exists p "services") (_file_exists p "microservices")
                ltac:(effects) ltac:(effects) w) as [micro Hmicro].
  destruct (Hor (_file_exists p "Dockerfile")
                (orM (_file_exists p "docker-compose.yml")
                     (_file_exists p "docker-compose.yaml"))
                ltac:(effects) ltac:(effects) w) as [docker Hdocker].
  exists mono, micro, docker.
  rewrite (bind_run _ _ _ _ _ Hmono), (bind_run _ _ _ _ _ Hmicro),
    (bind_run _ _ _ _ _ Hdocker).
  reflexivity.
Qed.

Lemma safe_detect_testing_loop p patterns :
  safe (_detect_testing_loop (W := W) p patterns).
Proof.
  induction patterns as [| pattern rest IH]; simpl.
  - apply safe_ret.
  - apply safe_bind; [apply safe_file_exists |].
    intros [|]; [apply safe_ret | exact IH].
Qed.

Lemma safe_detect_testing p language :
  safe (_detect_testing (W := W) p language).
Proof. apply safe_detect_testing_loop. Qed.

Lemma safe_detect_build_tools p info :
  safe (_detect_build_tools (W := W) p info).
Proof. unfold _detect_build_tools. effects. Qed.

Lemma safe_detect_deployment p info :
  safe (_detect_deployment (W := W) p info).
Proof. unfold _detect_deployment. effects. Qed.

(** [detect] is the classifier followed by four analyzers that cannot
    fail: it raises what the classifier raises, and otherwise returns the
    profile assembled from the five answers, in an unchanged world. *)
Lemma detect_run p w :
  match fst (_detect_language_and_framework p (manifests p w) w) with
  | inl e => detect p w = (inl e, w)
  | inr d =>
      exists mono micro docker t tools strategies,
        detect p w =
        (inr (assembled p d
                {| monorepo := mono; microservices := micro;
                   layered := false; modular := false;
                   dockerized := docker |}
                t tools strategies), w)
  end.
Proof.
  unfold detect. rewrite try_reraise.
  rewrite (bind_run _ _ _ _ _ (_read_package_json_run p w)).
  rewrite (bind_run _ _ _ _ _ (_read_requirements_txt_run p w)).
  rewrite (bind_run _ _ _ _ _ (_read_pom_xml_run p w)).
  rewrite (bind_run _ _ _ _ _ (_read_go_mod_run p w)).
  rewrite (bind_run _ _ _ _ _ (_read_composer_json_run p w)).
  rewrite (bind_run _ _ _ _ _ (_read_csproj_run p w)).
  replace {| package_json := package_json (manifests p w);
             requirements_txt := requirements_txt (manifests p w);
             pom_xml := pom_xml (manifests p w);
             go_mod := go_mod (manifests p w);
             composer_json := composer_json (manifests p w);
             csproj := csproj (manifests p w) |}
    with (manifests p w) by reflexivity.
  pose proof (read_only_detect_language_and_framework p (manifests p w) w) as Hro.
  destruct (_detect_language_and_framework p (manifests p w) w)
    as [[e | d] w'] eqn:Hd; simpl in Hro; subst w'; simpl.
  - apply (bind_raise _ _ _ _ _ Hd).
  - rewrite (bind_run _ _ _ _ _ Hd).
    destruct (_analyze_structure_run p (det_language d) w)
      as (mono & micro & docker & Hs).
    destruct (safe_detect_testing p (det_language d) w) as [t Ht].
    exists mono, micro, docker, t.
    simpl. rewrite (bind_run _ _ _ _ _ Hs). simpl.
    rewrite (bind_run _ _ _ _ _ Ht).
    match goal with
    | |- context [bind (_detect_build_tools p ?i)] =>
        destruct (safe_detect_build_tools p i w) as [tools Htools]
    end.
    exists tools. rewrite (bind_run _ _ _ _ _ Htools).
    match goal with
    | |- context [bind (_detect_deployment p ?i)] =>
        destruct (safe_detect_deployment p i w) as [strategies Hstr]
    end.
    exists strategies. rewrite (bind_run _ _ _ _ _ Hstr).
    reflexivity.
Qed.

Lemma read_only_detect p : read_only (detect (W := W) p).
Proof.
  intros w. pose proof (detect_run p w) as H.
  destruct (fst (_detect_language_and_framework p (manifests p w) w)).
  - rewrite H. reflexivity.
  - destruct H as (mono & micro & docker & t & tools & strategies & H).
    rewrite H. reflexivity.
Qed.
End DetectorLemmas.

(** * Complexity *)

(** [_assess_complexity] computes the specification's score function on the
    fields of the dict it is given. *)
Lemma _assess_complexity_spec (info : ProjectInfo) :
  ProjectDetector._assess_complexity info =
  complexity_of (length (dependencies info))
                (monorepo (structure info))
                (microservices (structure info))
                (testing info).
Proof.
  unfold ProjectDetector._assess_complexity,
    ProjectDetector._assess_complexity_score,
    ProjectDetector.dependency_tier, complexity_of.
  destruct (50 <? length (dependencies info))%nat,
    (20 <? length (dependencies info))%nat,
    (monorepo (structure info)), (microservices (structure info)),
    (testing info); reflexivity.
Qed.

(** The two scenarios of the specification. *)
Example complexity_60_deps_monorepo_untested :
  ProjectDetector._assess_complexity_score (Sample.scored 60 true false false)
  = 5%Z
  /\ ProjectDetector._assess_complexity (Sample.scored 60 true false false)
     = "high".
Proof. split; reflexivity. Qed.

Example complexity_10_deps_tested :
  ProjectDetector._assess_complexity_score (Sample.scored 10 false false true)
  = 0%Z
  /\ ProjectDetector._assess_complexity (Sample.scored 10 false false true)
     = "low".
Proof. split; reflexivity. Qed.

(** The label stored by [detect] is the score function taken with no
    dependencies and with [testing] still at its default [False]: it is
    computed before the tests are looked for. *)
Lemma assembled_complexity p d s t tools strategies :
  complexity (assembled p d s t tools strategies) =
  complexity_of 0 (monorepo s) (microservices s) false.
Proof.
  unfold assembled. simpl. rewrite _assess_complexity_spec. reflexivity.
Qed.

Section DetectFacts.
Context {W : Type} {FS : FileSystem W} {L : PyLib}.

(** Every profile [detect] returns is an assembled one. *)
Lemma detect_returns_assembled p w info :
  fst (ProjectDetector.detect p w) = inr info ->
  exists d mono micro docker t tools strategies,
    info = assembled p d
             {| monorepo := mono; microservices := micro; layered := false;
                modular := false; dockerized := docker |}
             t tools strategies.
Proof.
  intros H. pose proof (detect_run p w) as R.
  destruct (fst (ProjectDetector._detect_language_and_framework
                   p (manifests p w) w)) as [e | d].
  - rewrite R in H. discriminate.
  - destruct R as (mono & micro & docker & t & tools & strategies & R).
    rewrite R in H. simpl in H. injection H as <-.
    exists d, mono, micro, docker, t, tools, strategies. reflexivity.
Qed.
End DetectFacts.

(** C1.  On a tree that holds a [services] directory and a test file,
    [detect] returns a profile whose stored complexity is ["medium"], while
    the score function applied to the dependencies, structure and testing
    fields of that same profile gives ["low"]: the label was computed while
    [testing] was still [False]. *)
Theorem detect_complexity_ignores_testing :
  fst (ProjectDetector.detect "proj" Scripted.services_with_tests)
  = inr Sample.services_profile
  /\ testing Sample.services_profile = true
  /\ complexity Sample.services_profile = "medium"
  /\ ProjectDetector._assess_complexity Sample.services_profile = "low"
  /\ complexity_of (length (dependencies Sample.services_profile))
                   (monorepo (structure Sample.services_profile))
                   (microservices (structure Sample.services_profile))
                   (testing Sample.services_profile) = "low".
Proof. repeat split. Qed.

(** * Detection reads and never writes *)

(** C8.  Detection leaves the tree as it found it, and a second run on the
    tree the first run left behind returns what the first run returned: the
    same profile, field for field, or the same exception. *)
Theorem detect_idempotent {W : Type} {FS : FileSystem W} {L : PyLib}
    (project_path : string) (w : W) :
  snd (ProjectDetector.detect project_path w) = w
  /\ fst (ProjectDetector.detect project_path
            (snd (ProjectDetector.detect project_path w)))
     = fst (ProjectDetector.detect project_path w).
Proof. apply read_only_rerun, read_only_detect. Qed.

(** * Fields that detection never fills *)

(** C9.  A profile returned by [detect] has no dependencies; the dependency
    tier of its complexity score is 0, and the recommendations drawn from it
    never include the one about the number of dependencies. *)
Theorem detect_dependencies_empty {W : Type} {FS : FileSystem W} {L : PyLib}
    (project_path : string) (w : W) (info : ProjectInfo) :
  fst (ProjectDetector.detect project_path w) = inr info ->
  dependencies info = []
  /\ ProjectDetector.dependency_tier (length (dependencies info)) = 0%Z
  /\ forall r, In r (AmazingAutomata.get_refactoring_recommendations info) ->
               AmazingAutomata.rec_type r <> "dependencies".
Proof.
  intros H.
  destruct (detect_returns_assembled _ _ _ H)
    as (d & mono & micro & docker & t & tools & strategies & ->).
  split; [reflexivity |]. split; [reflexivity |].
  intros r Hr. unfold AmazingAutomata.get_refactoring_recommendations in Hr.
  rewrite assembled_complexity in Hr.
  change (dependencies (assembled project_path d
            {| monorepo := mono; microservices := micro; layered := false;
               modular := false; dockerized := docker |} t tools strategies))
    with (@nil string) in Hr.
  change (testing (assembled project_path d
            {| monorepo := mono; microservices := micro; layered := false;
               modular := false; dockerized := docker |} t tools strategies))
    with t in Hr.
  simpl length in Hr. simpl Nat.ltb in Hr. cbv iota in Hr.
  destruct t; simpl in Hr;
    destruct (complexity_of 0 mono micro false =? "high"); simpl in Hr;
    repeat (destruct Hr as [Hr | Hr]; [subst r; simpl; discriminate |]);
    destruct Hr.
Qed.

Lemma detect_dependencies_empty_witness :
  fst (ProjectDetector.detect "proj" Scripted.empty_tree)
  = inr Sample.unknown_profile
  /\ dependencies Sample.unknown_profile = []
  /\ ProjectDetector.dependency_tier
       (length (dependencies Sample.unknown_profile)) = 0%Z
  /\ forall r,
       In r (AmazingAutomata.get_refactoring_recommendations
               Sample.unknown_profile) ->
       AmazingAutomata.rec_type r <> "dependencies".
Proof.
  split; [reflexivity |].
  apply (detect_dependencies_empty (W := Scripted.World) "proj"
           Scripted.empty_tree).
  reflexivity.
Defined.

(** C10.  The structure record of a profile returned by [detect] has
    [layered] and [modular] unset, and so has every record
    [_analyze_structure] returns. *)
Theorem detect_structure_never_layered_or_modular
    {W : Type} {FS : FileSystem W} {L : PyLib}
    (project_path : string) (w : W) (info : ProjectInfo) :
  fst (ProjectDetector.detect project_path w) = inr info ->
  layered (structure info) = false
  /\ modular (structure info) = false
  /\ forall language,
       exists s, ProjectDetector._analyze_structure project_path language w
                 = (inr s, w)
                 /\ layered s = false /\ modular s = false.
Proof.
  intros H.
  destruct (detect_returns_assembled _ _ _ H)
    as (d & mono & micro & docker & t & tools & strategies & ->).
  split; [reflexivity |]. split; [reflexivity |].
  intros language.
  destruct (_analyze_structure_run project_path language w)
    as (mono' & micro' & docker' & Hs).
  eexists. split; [exact Hs |]. split; reflexivity.
Qed.

Lemma detect_structure_never_layered_or_modular_witness :
  fst (ProjectDetector.detect "proj" Scripted.services_with_tests)
  = inr Sample.services_profile
  /\ layered (structure Sample.services_profile) = false
  /\ modular (structure Sample.services_profile) = false
  /\ forall language,
       exists s,
         ProjectDetector._analyze_structure "proj" language
           Scripted.services_with_tests
         = (inr s, Scripted.services_with_tests)
         /\ layered s = false /\ modular s = false.
Proof.
  split; [reflexivity |].
  apply (detect_structure_never_layered_or_modular (W := Scripted.World)
           "proj" Scripted.services_with_tests).
  reflexivity.
Defined.

(** * Classification *)

Section ClassifierLemmas.
Context {W : Type} {FS : FileSystem W} {L : PyLib}.
Import ProjectDetector.

Lemma orM_run (a b : M W bool) w x y :
  a w = (inr x, w) -> b w = (inr y, w) -> orM a b w = (inr (x || y), w).
Proof.
  intros Ha Hb. unfold orM. rewrite (bind_run _ _ _ _ _ Ha).
  destruct x; [reflexivity | exact Hb].
Qed.

Lemma classify_no_rule p w :
  no_rule_matches p w ->
  _detect_language_and_framework p (manifests p w) w = (inr fallback, w).
Proof.
  intros (Hpkg & Hreq & Hr1 & Hr2 & Hpom & Hj1 & Hj2 & Hgo & Hg1
          & Hc1 & Hc2 & Hc3 & Hc4 & Hc5 & Hcs & Hcs1 & Hphp & Hphp1).
  unfold _detect_language_and_framework.
  assert (Hfirst :
    match package_json (manifests p w) with
    | Some v => if truthy v then liftE (_package_json_rules v) else ret None
    | None => ret None
    end w = (inr None, w)).
  { destruct (package_json (manifests p w)) as [v |]; [| reflexivity].
    destruct (truthy v) eqn:Ht; [| reflexivity].
    destruct Hpkg as [Hf | Hn]; [discriminate |].
    unfold liftE. rewrite Hn. reflexivity. }
  rewrite (bind_run _ _ _ _ _ Hfirst).
  repeat
    (erewrite bind_run
       by (repeat first [ apply orM_run | apply _file_exists_run
                        | reflexivity ]);
     rewrite ?Hreq, ?Hr1, ?Hr2, ?Hpom, ?Hj1, ?Hj2, ?Hgo, ?Hg1, ?Hc1, ?Hc2,
       ?Hc3, ?Hc4, ?Hc5, ?Hcs, ?Hcs1, ?Hphp, ?Hphp1;
     cbn [orb]).
  reflexivity.
Qed.

(** A manifest whose merged dependencies hold a TypeScript marker is a
    non-empty dict. *)
Lemma all_deps_truthy pkg deps :
  all_deps pkg = inr deps ->
  dict_mem "typescript" deps || dict_mem "ts-node" deps = true ->
  truthy pkg = true.
Proof.
  intros Hd Hts. destruct pkg as [| b | n | s | items | entries];
    try discriminate.
  destruct entries as [| e rest]; [| reflexivity].
  simpl in Hd. injection Hd as <-. discriminate.
Qed.

Lemma package_rules_typescript pkg deps :
  all_deps pkg = inr deps ->
  dict_mem "typescript" deps || dict_mem "ts-node" deps = true ->
  _package_json_rules pkg = inr (Some typescript_backend).
Proof.
  intros Hd Hts. unfold _package_json_rules. rewrite Hd. simpl bindE.
  rewrite Hts. reflexivity.
Qed.

Lemma classify_typescript p w pkg deps files :
  package_json files = Some pkg ->
  all_deps pkg = inr deps ->
  dict_mem "typescript" deps || dict_mem "ts-node" deps = true ->
  _detect_language_and_framework p files w = (inr typescript_backend, w).
Proof.
  intros Hpkg Hd Hts. unfold _detect_language_and_framework.
  rewrite Hpkg, (all_deps_truthy _ _ Hd Hts).
  unfold liftE at 1. unfold bind at 1.
  rewrite (package_rules_typescript _ _ Hd Hts). reflexivity.
Qed.

(** When the classifier answers [d], [detect] returns a profile carrying
    [d], in an unchanged world. *)
Lemma detect_of_classification p w d :
  _detect_language_and_framework p (manifests p w) w = (inr d, w) ->
  exists info,
    detect p w = (inr info, w)
    /\ language info = det_language d
    /\ framework info = det_framework d
    /\ type info = Some (det_type d).
Proof.
  intros Hd. pose proof (detect_run p w) as R. rewrite Hd in R. simpl in R.
  destruct R as (mono & micro & docker & t & tools & strategies & R).
  eexists. split; [exact R |]. repeat split; reflexivity.
Qed.
End ClassifierLemmas.

(** Key membership in [{**a, **b}] is membership in either dict. *)
Lemma dict_mem_set k d k' v :
  dict_mem k (dict_set d k' v) = (k' =? k) || dict_mem k d.
Proof.
  unfold dict_mem. induction d as [| [k0 v0] rest IH]; simpl.
  - destruct (k' =? k); reflexivity.
  - destruct (k0 =? k') eqn:E0.
    + apply String.eqb_eq in E0. subst k0. simpl.
      destruct (k' =? k); reflexivity.
    + simpl. destruct (k0 =? k) eqn:E1.
      * destruct (k' =? k); reflexivity.
      * exact IH.
Qed.

Lemma dict_mem_merge k a b :
  dict_mem k (dict_merge a b) = dict_mem k a || dict_mem k b.
Proof.
  unfold dict_merge. revert a.
  induction b as [| [k0 v0] rest IH]; intros a; simpl.
  - rewrite orb_false_r. reflexivity.
  - rewrite IH, dict_mem_set.
    assert (E : dict_mem k ((k0, v0) :: rest) = (k0 =? k) || dict_mem k rest)
      by (unfold dict_mem; simpl; destruct (k0 =? k); reflexivity).
    rewrite E.
    destruct (k0 =? k), (dict_mem k a), (dict_mem k rest); reflexivity.
Qed.

(** [all_deps] succeeds exactly on a manifest whose two dependency entries
    are dicts (or absent), and then holds the keys of both. *)
Lemma all_deps_members pkg deps :
  ProjectDetector.all_deps pkg = inr deps ->
  exists a b,
    py_get pkg "dependencies" (JObj []) = inr (JObj a)
    /\ py_get pkg "devDependencies" (JObj []) = inr (JObj b)
    /\ forall k, dict_mem k deps = dict_mem k a || dict_mem k b.
Proof.
  unfold ProjectDetector.all_deps. intros H.
  destruct (py_get pkg "dependencies" (JObj [])) as [e | x]; [discriminate |].
  destruct (py_get pkg "devDependencies" (JObj [])) as [e | y];
    [discriminate |].
  simpl in H.
  destruct x as [| | | | | a]; try discriminate.
  destruct y as [| | | | | b]; try discriminate.
  simpl in H. injection H as <-.
  exists a, b. repeat split. intros k. apply dict_mem_merge.
Qed.

(** C2.  On the empty directory no rule matches, and the profile [detect]
    returns has language ['unknown'] and type ['unknown'] but framework
    Python's [None], not the string ['unknown'] that the dict [detect]
    starts from holds and that the C branch and every framework probe use
    for an undetermined framework. *)
Lemma unknown_tree_framework_is_none :
  no_rule_matches "proj" Scripted.empty_tree
  /\ framework (ProjectDetector.initial_project_info "proj") = Some "unknown"
  /\ exists info,
       ProjectDetector.detect "proj" Scripted.empty_tree
       = (inr info, Scripted.empty_tree)
       /\ language info = "unknown"
       /\ type info = Some "unknown"
       /\ framework info = None
       /\ framework info <> Some "unknown".
Proof.
  split; [| split; [reflexivity |]].
  - unfold no_rule_matches. simpl. repeat split; reflexivity.
  - eexists. split; [reflexivity |]. repeat split; discriminate.
Qed.

(** X27.  On a tree where no rule of the decision list matches, [detect]
    returns a profile with language ['unknown'], framework [None] and type
    ['unknown']; and for every profile whose language is ['unknown'] the
    setup, install, test and build catalogs are empty. *)
Theorem unknown_tree_profile {W : Type} {FS : FileSystem W} {L : PyLib}
    (project_path : string) (w : W) :
  no_rule_matches project_path w ->
  (exists info,
     ProjectDetector.detect project_path w = (inr info, w)
     /\ language info = "unknown"
     /\ framework info = None
     /\ type info = Some "unknown")
  /\ forall info,
       language info = "unknown" ->
       PipelineGenerator._get_language_setup_steps info = []
       /\ PipelineGenerator._get_dependency_install_steps info = []
       /\ PipelineGenerator._get_test_steps info = []
       /\ PipelineGenerator._get_build_steps info = [].
Proof.
  intros H. split.
  - exact (detect_of_classification _ _ _ (classify_no_rule _ _ H)).
  - intros info Hl.
    unfold PipelineGenerator._get_language_setup_steps,
      PipelineGenerator._get_dependency_install_steps,
      PipelineGenerator._get_test_steps, PipelineGenerator._get_build_steps.
    rewrite Hl. repeat split; reflexivity.
Qed.

Lemma unknown_tree_profile_witness :
  no_rule_matches "proj" Scripted.empty_tree
  /\ (exists info,
        ProjectDetector.detect "proj" Scripted.empty_tree
        = (inr info, Scripted.empty_tree)
        /\ language info = "unknown"
        /\ framework info = None
        /\ type info = Some "unknown")
  /\ forall info,
       language info = "unknown" ->
       PipelineGenerator._get_language_setup_steps info = []
       /\ PipelineGenerator._get_dependency_install_steps info = []
       /\ PipelineGenerator._get_test_steps info = []
       /\ PipelineGenerator._get_build_steps info = [].
Proof.
  assert (H : no_rule_matches "proj" Scripted.empty_tree).
  { unfold no_rule_matches. simpl. repeat split; reflexivity. }
  split; [exact H |].
  exact (unknown_tree_profile "proj" Scripted.empty_tree H).
Defined.

(** C6.  When the package manifest's merged dependency dict holds a
    TypeScript marker and [react], the classifier answers typescript /
    typescript, and [detect] returns a profile with that language and
    framework, not [react]. *)
Theorem typescript_precedes_react {W : Type} {FS : FileSystem W} {L : PyLib}
    (project_path : string) (w : W) (pkg : json) (deps : dict) :
  fs_load_json (path_join project_path "package.json") w = Some pkg ->
  ProjectDetector.all_deps pkg = inr deps ->
  dict_mem "typescript" deps || dict_mem "ts-node" deps = true ->
  dict_mem "react" deps = true ->
  ProjectDetector._detect_language_and_framework
    project_path (manifests project_path w) w
  = (inr {| det_language := "typescript";
            det_framework := Some "typescript";
            det_type := "backend" |}, w)
  /\ exists info,
       ProjectDetector.detect project_path w = (inr info, w)
       /\ language info = "typescript"
       /\ framework info = Some "typescript"
       /\ framework info <> Some "react".
Proof.
  intros Hload Hd Hts _.
  assert (Hc := classify_typescript project_path w pkg deps
                  (manifests project_path w) Hload Hd Hts).
  split; [exact Hc |].
  destruct (detect_of_classification _ _ _ Hc) as (info & Hi & Hl & Hf & _).
  exists info. repeat split; try assumption.
  rewrite Hf. discriminate.
Qed.

Lemma typescript_precedes_react_witness :
  fs_load_json (path_join "proj" "package.json") Scripted.ts_react_tree
  = Some Scripted.ts_react_manifest
  /\ ProjectDetector.all_deps Scripted.ts_react_manifest
     = inr [("react", JStr "^18.2.0"); ("typescript", JStr "^5.0.0")]
  /\ exists info,
       ProjectDetector.detect "proj" Scripted.ts_react_tree
       = (inr info, Scripted.ts_react_tree)
       /\ language info = "typescript"
       /\ framework info = Some "typescript"
       /\ framework info <> Some "react".
Proof.
  split; [reflexivity |]. split; [reflexivity |].
  apply (typescript_precedes_react "proj" Scripted.ts_react_tree
           Scripted.ts_react_manifest
           [("react", JStr "^18.2.0"); ("typescript", JStr "^5.0.0")]);
    reflexivity.
Defined.

(** * Generation *)

Section GenerateLemmas.
Context {W : Type} {FS : FileSystem W} {L : PyLib}.
Import PipelineGenerator.

(** For a known platform, [generate] creates the directory of the output
    path and then writes the document there. *)
Lemma generate_supported_writes info cfg w template :
  templates
    (match Config.platform cfg with Some p => p | None => "github-actions" end)
  = Some template ->
  let output_path := output_path_of (template info cfg) info cfg in
    generate info cfg w =
    (let (ok, w1) := fs_makedirs (dirname output_path) w in
     if ok then
       let (ok', w2) :=
         fs_write output_path (content (template info cfg)) w1 in
       if ok' then
         (inr {| pipeline := template info cfg;
                 output_file := output_path;
                 platform := match Config.platform cfg with
                             | Some p => p
                             | None => "github-actions"
                             end |}, w2)
       else (inl OSError, w2)
     else (inl OSError, w1)).
Proof.
  intros Ht. unfold generate. rewrite Ht. unfold _save_pipeline.
  unfold bind, makedirs, write_file, ret. cbv zeta.
  destruct (fs_makedirs _ w) as [[|] w1]; [| reflexivity].
  destruct (fs_write _ _ w1) as [[|] w2]; reflexivity.
Qed.

Lemma templates_unknown platform :
  platform <> "github-actions" -> platform <> "gitlab-ci" ->
  platform <> "jenkins" ->
  templates platform = None.
Proof.
  intros H1 H2 H3. unfold templates.
  apply String.eqb_neq in H1, H2, H3. rewrite H1, H2, H3. reflexivity.
Qed.
End GenerateLemmas.

(** On the empty scripted tree, generating for GitHub Actions creates
    [./.github/workflows] and writes one file there. *)
Example generate_github_actions_writes :
  let w := snd (PipelineGenerator.generate Sample.untested_js
                  (Sample.config "github-actions" Sample.deploy_enabled)
                  Scripted.empty_tree) in
  Scripted.made_dirs w = ["./.github/workflows"]
  /\ map fst (Scripted.written w) = ["./.github/workflows/ci.yml"].
Proof. vm_compute. split; reflexivity. Qed.

(** C7.  For a platform identifier that names none of the three templates,
    [generate] raises the unsupported-platform [ValueError] and hands back
    the world it was given: no directory is created and no file is written. *)
Theorem generate_unsupported_platform
    {W : Type} {FS : FileSystem W} {L : PyLib}
    (info : ProjectInfo) (cfg : Config.t) (w : W) (platform : string) :
  Config.platform cfg = Some platform ->
  platform <> "github-actions" ->
  platform <> "gitlab-ci" ->
  platform <> "jenkins" ->
  PipelineGenerator.generate info cfg w
  = (inl (PipelineGenerator.unsupported_platform platform), w).
Proof.
  intros Hp H1 H2 H3. unfold PipelineGenerator.generate.
  rewrite Hp, (templates_unknown platform H1 H2 H3). reflexivity.
Qed.

Lemma generate_unsupported_platform_witness :
  Config.platform (Sample.config "circleci" Sample.deploy_enabled)
  = Some "circleci"
  /\ "circleci" <> "github-actions"
  /\ "circleci" <> "gitlab-ci"
  /\ "circleci" <> "jenkins"
  /\ PipelineGenerator.generate Sample.untested_js
       (Sample.config "circleci" Sample.deploy_enabled) Scripted.empty_tree
     = (inl (PipelineGenerator.unsupported_platform "circleci"),
        Scripted.empty_tree).
Proof.
  repeat (split; [first [reflexivity | discriminate] |]).
  apply (generate_unsupported_platform Sample.untested_js
           (Sample.config "circleci" Sample.deploy_enabled)
           Scripted.empty_tree "circleci");
    first [reflexivity | discriminate].
Defined.

(** * The deploy stage *)

(** The GitHub Actions workflow has a [deploy] job exactly when deployment
    is enabled. *)
Lemma github_deploy_stage_iff info cfg :
  Doc.has_deploy_stage "github-actions"
    (PipelineGenerator.github_actions_workflow info cfg)
  = Config.deployment_enabled cfg.
Proof.
  unfold PipelineGenerator.github_actions_workflow.
  destruct (Config.deployment_enabled cfg); reflexivity.
Qed.

(** The GitLab CI pipeline has a [deploy] job exactly when deployment is
    enabled (its [stages] list names [deploy] either way). *)
Lemma gitlab_deploy_stage_iff info cfg :
  Doc.has_deploy_stage "gitlab-ci"
    (PipelineGenerator.gitlab_ci_pipeline info cfg)
  = Config.deployment_enabled cfg.
Proof.
  unfold PipelineGenerator.gitlab_ci_pipeline.
  destruct (Config.deployment_enabled cfg); reflexivity.
Qed.

(** C3.  The Jenkins template has the two stages [Build] and [Test] whatever
    the config says: with [deployment.enabled] set, its document still has
    no deploy stage. *)
Theorem jenkins_ignores_deployment_enabled (info : ProjectInfo) :
  let cfg := Sample.config "jenkins" Sample.deploy_enabled in
  Config.deployment_enabled cfg = true
  /\ Doc.document "jenkins" info cfg
     = Some (PipelineGenerator.jenkins_pipeline info cfg)
  /\ Doc.has_deploy_stage "jenkins" (PipelineGenerator.jenkins_pipeline info cfg)
     = false
  /\ map (fun st => Doc.get st "stage")
         (PipelineGenerator._generate_jenkins_stages info cfg)
     = [Some (YStr "Build"); Some (YStr "Test")].
Proof. repeat split. Qed.

(** * Test steps *)

Lemma existsb_app_false {A : Type} (f : A -> bool) l1 l2 :
  existsb f l1 = false -> existsb f l2 = false ->
  existsb f (l1 ++ l2)%list = false.
Proof. intros H1 H2. rewrite existsb_app, H1, H2. reflexivity. Qed.

Lemma setup_steps_run_no_tests info :
  existsb Doc.runs_tests (PipelineGenerator._get_language_setup_steps info)
  = false.
Proof.
  unfold PipelineGenerator._get_language_setup_steps.
  repeat match goal with
         | |- context [if ?b then _ else _] => destruct b; [reflexivity |]
         end.
  reflexivity.
Qed.

Lemma install_steps_run_no_tests info :
  existsb Doc.runs_tests (PipelineGenerator._get_dependency_install_steps info)
  = false.
Proof.
  unfold PipelineGenerator._get_dependency_install_steps.
  repeat match goal with
         | |- context [if ?b then _ else _] => destruct b; [reflexivity |]
         end.
  reflexivity.
Qed.

Lemma build_steps_run_no_tests info :
  existsb Doc.runs_tests (PipelineGenerator._get_build_steps info) = false.
Proof.
  unfold PipelineGenerator._get_build_steps.
  destruct ((language info =? "javascript") || (language info =? "typescript")).
  - destruct (PipelineGenerator.framework_builds (framework info));
      reflexivity.
  - repeat match goal with
           | |- context [if ?b then _ else _] => destruct b; [reflexivity |]
           end.
    reflexivity.
Qed.

(** In the GitHub Actions build job no step runs a test command when the
    profile's [testing] flag is unset. *)
Lemma github_build_steps_untested info cfg :
  testing info = false ->
  existsb Doc.runs_tests
    (Doc.github_steps (PipelineGenerator.github_actions_workflow info cfg)
       "build")
  = false.
Proof.
  intros Ht.
  assert (E : Doc.github_steps
                (PipelineGenerator.github_actions_workflow info cfg) "build"
              = PipelineGenerator._generate_build_steps info cfg)
    by (unfold PipelineGenerator.github_actions_workflow;
        destruct (Config.deployment_enabled cfg); reflexivity).
  rewrite E.
  unfold PipelineGenerator._generate_build_steps. rewrite Ht.
  destruct (dockerized (structure info));
    repeat first
      [ apply existsb_app_false
      | apply setup_steps_run_no_tests
      | apply install_steps_run_no_tests
      | apply build_steps_run_no_tests
      | reflexivity ].
Qed.

(** C4.  For a JavaScript profile whose [testing] flag is unset, the GitLab
    CI pipeline still carries a [test] job whose script is [npm test]. *)
Theorem gitlab_test_job_ignores_testing (cfg : Config.t) :
  testing Sample.untested_js = false
  /\ Doc.document "gitlab-ci" Sample.untested_js cfg
     = Some (PipelineGenerator.gitlab_ci_pipeline Sample.untested_js cfg)
  /\ Doc.gitlab_script
       (PipelineGenerator.gitlab_ci_pipeline Sample.untested_js cfg) "test"
     = [YStr "npm test"]
  /\ Doc.is_test_command "npm test" = true.
Proof.
  split; [reflexivity |]. split; [reflexivity |]. split; [| reflexivity].
  unfold PipelineGenerator.gitlab_ci_pipeline.
  destruct (Config.deployment_enabled cfg); reflexivity.
Qed.

(** * Deploy steps *)

Lemma str_in_unfold n h :
  str_in n h =
  String.prefix n h
  || match h with EmptyString => false | String _ rest => str_in n rest end.
Proof. destruct h; reflexivity. Qed.

Lemma prefix_app n b : String.prefix n (n ++ b) = true.
Proof.
  induction n as [| c n IH]; simpl; [destruct b; reflexivity |].
  destruct (ascii_dec c c) as [_ | Hne]; [exact IH | contradiction].
Qed.

Lemma str_in_app a n b : str_in n (a ++ n ++ b) = true.
Proof.
  induction a as [| c a IH].
  - simpl append. rewrite str_in_unfold, prefix_app. reflexivity.
  - simpl append. rewrite str_in_unfold, IH. apply orb_true_r.
Qed.

(** Both docker deploy steps name the configured image. *)
Lemma docker_deploy_steps_reference_image info cfg n :
  Config.imageName (Config.get_deployment cfg) = Some n ->
  Forall (fun st => str_in n (Doc.run_of st) = true)
         (PipelineGenerator._get_docker_deploy_steps info cfg).
Proof.
  intros Hn. unfold PipelineGenerator._get_docker_deploy_steps. rewrite Hn.
  apply Forall_cons; [| apply Forall_cons; [| apply Forall_nil]].
  - change (str_in n ("docker build -t " ++ n ++ ":${{ github.sha }} .") = true).
    apply str_in_app.
  - change (str_in n ("docker push " ++ n ++ ":${{ github.sha }}") = true).
    apply str_in_app.
Qed.

(** X26.  With deployment enabled, the deploy job of the GitHub Actions
    workflow (the default platform) holds the steps of
    [_generate_deploy_steps], and these are: for strategy ['docker'] and
    image name ['svc'], a build step and a push step that both name [svc];
    for strategy ['docker'] and no image name, the same two steps for
    [myapp]; for strategy ['kubernetes'], the single step
    [kubectl apply -f k8s/]; for any other or no strategy, no step. *)
Theorem deploy_steps_by_strategy (info : ProjectInfo) (cfg : Config.t) :
  Config.deployment_enabled cfg = true ->
  let d := Config.get_deployment cfg in
  let steps := PipelineGenerator._generate_deploy_steps info cfg in
  Doc.github_steps (PipelineGenerator.github_actions_workflow info cfg) "deploy"
  = steps
  /\ (Config.strategy d = Some "docker" -> Config.imageName d = Some "svc" ->
      steps = [PipelineGenerator.step_run "Build Docker image"
                 "docker build -t svc:${{ github.sha }} .";
               PipelineGenerator.step_run "Push to registry"
                 "docker push svc:${{ github.sha }}"]
      /\ length steps = 2%nat
      /\ Forall (fun st => str_in "svc" (Doc.run_of st) = true) steps)
  /\ (Config.strategy d = Some "docker" -> Config.imageName d = None ->
      steps = [PipelineGenerator.step_run "Build Docker image"
                 "docker build -t myapp:${{ github.sha }} .";
               PipelineGenerator.step_run "Push to registry"
                 "docker push myapp:${{ github.sha }}"])
  /\ (Config.strategy d = Some "kubernetes" ->
      steps = [PipelineGenerator.step_run "Deploy to Kubernetes"
                 "kubectl apply -f k8s/"])
  /\ (Config.strategy d <> Some "docker" ->
      Config.strategy d <> Some "kubernetes" ->
      steps = []).
Proof.
  intros He d steps. subst d steps. split.
  - unfold PipelineGenerator.github_actions_workflow. rewrite He. reflexivity.
  - unfold PipelineGenerator._generate_deploy_steps,
      PipelineGenerator.strategy_is,
      PipelineGenerator._get_docker_deploy_steps.
    split; [| split; [| split]].
    + intros Hs Hn. rewrite Hs, Hn. repeat split. repeat constructor.
    + intros Hs Hn. rewrite Hs, Hn. reflexivity.
    + intros Hs. rewrite Hs. reflexivity.
    + intros Hd Hk.
      destruct (Config.strategy (Config.get_deployment cfg)) as [s |];
        [| reflexivity].
      destruct (s =? "docker") eqn:E1;
        [apply String.eqb_eq in E1; subst s; contradiction |].
      destruct (s =? "kubernetes") eqn:E2;
        [apply String.eqb_eq in E2; subst s; contradiction |].
      reflexivity.
Qed.

Lemma deploy_steps_by_strategy_witness :
  let cfg := Sample.config "github-actions" Sample.docker_svc in
  Config.deployment_enabled cfg = true
  /\ Config.strategy (Config.get_deployment cfg) = Some "docker"
  /\ Config.imageName (Config.get_deployment cfg) = Some "svc"
  /\ PipelineGenerator._generate_deploy_steps Sample.untested_js cfg
     = [PipelineGenerator.step_run "Build Docker image"
          "docker build -t svc:${{ github.sha }} .";
        PipelineGenerator.step_run "Push to registry"
          "docker push svc:${{ github.sha }}"]
  /\ Doc.github_steps
       (PipelineGenerator.github_actions_workflow Sample.untested_js cfg)
       "deploy"
     = PipelineGenerator._generate_deploy_steps Sample.untested_js cfg.
Proof.
  intros cfg.
  destruct (deploy_steps_by_strategy Sample.untested_js cfg eq_refl)
    as (Hjob & Hsvc & _).
  destruct (Hsvc eq_refl eq_refl) as (Hsteps & _).
  split; [reflexivity |]. split; [reflexivity |]. split; [reflexivity |].
  split; [exact Hsteps | exact Hjob].
Defined.

(** * More on the monad: results at one world, and postconditions *)

Section MoreMonadLemmas.
Context {W : Type}.

Lemma returns_at_safe {A : Type} (m : M W A) w : safe m -> returns_at w m.
Proof. intros H. exact (H w). Qed.

Lemma returns_at_ret {A : Type} (a : A) w : returns_at w (ret (W := W) a).
Proof. exists a. reflexivity. Qed.

Lemma returns_at_bind {A B : Type} (m : M W A) (k : A -> M W B) w :
  returns_at w m -> (forall a, m w = (inr a, w) -> returns_at w (k a)) ->
  returns_at w (bind m k).
Proof.
  intros [a Ha] Hk. unfold returns_at. rewrite (bind_run _ _ _ _ _ Ha).
  exact (Hk a Ha).
Qed.

Lemma ensures_ret {A : Type} (a : A) (Q : A -> Prop) :
  Q a -> ensures (ret (W := W) a) Q.
Proof. intros H w b w' E. injection E as <- _. exact H. Qed.

Lemma ensures_bind {A B : Type} (m : M W A) (k : A -> M W B) P Q :
  ensures m P -> (forall a, P a -> ensures (k a) Q) -> ensures (bind m k) Q.
Proof.
  intros Hm Hk w b w' E. unfold bind in E.
  destruct (m w) as [[e | a] w1] eqn:Em; [discriminate |].
  exact (Hk a (Hm _ _ _ Em) _ _ _ E).
Qed.

Lemma ensures_any {A : Type} (m : M W A) : ensures m (fun _ => True).
Proof. intros w a w' _. exact I. Qed.

Lemma ensures_try {A : Type} (m : M W A) (h : exn -> M W A) Q :
  ensures m Q -> (forall e, ensures (h e) Q) -> ensures (try_except m h) Q.
Proof.
  intros Hm Hh w a w' E. unfold try_except in E.
  destruct (m w) as [[e | a0] w1] eqn:Em.
  - exact (Hh e _ _ _ E).
  - injection E as <- _. exact (Hm _ _ _ Em).
Qed.

Lemma ensures_liftE {A : Type} (r : exn + A) (Q : A -> Prop) :
  (forall a, r = inr a -> Q a) -> ensures (liftE (W := W) r) Q.
Proof. intros H w a w' E. injection E as -> _. apply H. reflexivity. Qed.
End MoreMonadLemmas.

(** Decompose a goal [ensures m Q] whose continuations ignore what was bound
    before them, closing the leaves with [tac]. *)
Ltac ensures_with tac :=
  repeat first
    [ progress intros
    | apply ensures_ret; solve [tac]
    | eapply ensures_bind; [apply ensures_any |]
    | apply ensures_try
    | match goal with
      | |- ensures (if ?b then _ else _) _ => destruct b
      | |- ensures (match ?x with _ => _ end) _ => destruct x
      end ].

(** * The analyzers as functions of the tree *)

Section AnalyzerLemmas.
Context {W : Type} {FS : FileSystem W} {L : PyLib}.
Import ProjectDetector.

Lemma _analyze_structure_exact p language w :
  _analyze_structure p language w = (inr (structure_of p w), w).
Proof.
  unfold _analyze_structure, structure_of.
  repeat (erewrite bind_run
            by (repeat first [apply orM_run | apply _file_exists_run])).
  reflexivity.
Qed.

Lemma _detect_testing_loop_exact p patterns w :
  _detect_testing_loop p patterns w
  = (inr (existsb (fun pattern => exists_in p pattern w) patterns), w).
Proof.
  induction patterns as [| pattern rest IH]; simpl; [reflexivity |].
  rewrite (bind_run _ _ _ _ _ (_file_exists_run p pattern w)).
  destruct (exists_in p pattern w); [reflexivity | exact IH].
Qed.

Lemma _detect_testing_exact p language w :
  _detect_testing p language w = (inr (testing_of p language w), w).
Proof. apply _detect_testing_loop_exact. Qed.

Lemma _detect_build_tools_exact p info w :
  _detect_build_tools p info w = (inr (tools_of p w), w).
Proof.
  unfold _detect_build_tools, tools_of.
  repeat (erewrite bind_run by apply _file_exists_run).
  destruct (exists_in p "webpack.config.js" w),
    (exists_in p "vite.config.js" w), (exists_in p "Dockerfile" w);
    reflexivity.
Qed.

Lemma _detect_deployment_exact p info w :
  _detect_deployment p info w = (inr (strategies_of p w), w).
Proof.
  unfold _detect_deployment, strategies_of.
  repeat (erewrite bind_run
            by (repeat first [apply orM_run | apply _file_exists_run])).
  destruct (exists_in p "Dockerfile" w),
    (exists_in p "k8s" w || exists_in p "kubernetes" w); reflexivity.
Qed.

(** A profile returned by [detect] is assembled from the classifier's answer
    and from what the four analyzers see in the tree. *)
Lemma detect_inv p w info :
  fst (detect p w) = inr info ->
  exists d,
    _detect_language_and_framework p (manifests p w) w = (inr d, w)
    /\ info = assembled p d (structure_of p w)
                (testing_of p (det_language d) w)
                (tools_of p w) (strategies_of p w).
Proof.
  intros H.
  pose proof (read_only_detect_language_and_framework p (manifests p w) w)
    as Hro.
  destruct (_detect_language_and_framework p (manifests p w) w)
    as [[e | d] w'] eqn:Hd; simpl in Hro; subst w'.
  - pose proof (detect_run p w) as R. rewrite Hd in R. simpl in R.
    rewrite R in H. discriminate.
  - exists d. split; [reflexivity |].
    assert (E : detect p w =
                (inr (assembled p d (structure_of p w)
                        (testing_of p (det_language d) w)
                        (tools_of p w) (strategies_of p w)), w)).
    { unfold detect. rewrite try_reraise.
      rewrite (bind_run _ _ _ _ _ (_read_package_json_run p w)).
      rewrite (bind_run _ _ _ _ _ (_read_requirements_txt_run p w)).
      rewrite (bind_run _ _ _ _ _ (_read_pom_xml_run p w)).
      rewrite (bind_run _ _ _ _ _ (_read_go_mod_run p w)).
      rewrite (bind_run _ _ _ _ _ (_read_composer_json_run p w)).
      rewrite (bind_run _ _ _ _ _ (_read_csproj_run p w)).
      match goal with
      | |- context [_detect_language_and_framework p ?f] =>
          change f with (manifests p w)
      end.
      rewrite (bind_run _ _ _ _ _ Hd).
      erewrite bind_run by apply _analyze_structure_exact.
      erewrite bind_run by apply _detect_testing_exact.
      erewrite bind_run by apply _detect_build_tools_exact.
      erewrite bind_run by apply _detect_deployment_exact.
      reflexivity. }
    rewrite E in H. simpl in H. injection H as <-. reflexivity.
Qed.
End AnalyzerLemmas.

(** * Detection: what it returns and when it raises *)

Ltac in_table := simpl; repeat first [left; reflexivity | right]; fail.

Lemma package_rules_in_table v d :
  ProjectDetector._package_json_rules v = inr (Some d) ->
  In (det_language d, det_framework d, det_type d) classifications.
Proof.
  unfold ProjectDetector._package_json_rules. intros H.
  destruct (ProjectDetector.all_deps v) as [e | deps]; [discriminate |].
  simpl in H.
  repeat match type of H with
         | context [if ?b then _ else _] => destruct b
         | context [bindE ?m _] => destruct m; simpl in H
         end;
    try discriminate; injection H as <-; in_table.
Qed.

Section DetectionFacts.
Context {W : Type} {FS : FileSystem W} {L : PyLib}.
Import ProjectDetector.

Lemma python_framework_labels p :
  ensures (_detect_python_framework (W := W) p)
          (fun fw => In fw ["django"; "flask"; "fastapi"; "unknown"]).
Proof. unfold _detect_python_framework. ensures_with in_table. Qed.

Lemma java_framework_labels p :
  ensures (_detect_java_framework (W := W) p)
          (fun fw => In fw ["spring-boot"; "unknown"]).
Proof. unfold _detect_java_framework. ensures_with in_table. Qed.

Lemma go_framework_labels p :
  ensures (_detect_go_framework (W := W) p)
          (fun fw => In fw ["gin"; "echo"; "fiber"; "unknown"]).
Proof. unfold _detect_go_framework. ensures_with in_table. Qed.

Lemma csharp_framework_labels p :
  ensures (_detect_csharp_framework (W := W) p)
          (fun fw => In fw ["aspnet-core"; "unknown"]).
Proof. unfold _detect_csharp_framework. ensures_with in_table. Qed.

Lemma php_framework_labels p :
  ensures (_detect_php_framework (W := W) p)
          (fun fw => In fw ["laravel"; "symfony"; "unknown"]).
Proof. unfold _detect_php_framework. ensures_with in_table. Qed.

(** Close a branch of the classifier that asks a framework probe. *)
Ltac probe_branch lemma :=
  eapply ensures_bind; [apply lemma |];
  let fw := fresh "fw" in
  let Hfw := fresh "Hfw" in
  intros fw Hfw; apply ensures_ret; simpl in Hfw;
  repeat (destruct Hfw as [<- | Hfw]; [in_table |]);
  contradiction.

Lemma classifier_in_table p files :
  ensures (_detect_language_and_framework (W := W) p files)
          (fun d => In (det_language d, det_framework d, det_type d)
                       classifications).
Proof.
  unfold _detect_language_and_framework.
  eapply ensures_bind
    with (P := fun o => forall d, o = Some d ->
                 In (det_language d, det_framework d, det_type d)
                    classifications).
  - destruct (package_json files) as [v |];
      [destruct (truthy v) |]; try (apply ensures_ret; discriminate).
    apply ensures_liftE. intros a E d ->. exact (package_rules_in_table _ _ E).
  - intros [d |] HP; [apply ensures_ret, HP; reflexivity |].
    eapply ensures_bind; [apply ensures_any |].
    intros [|] _; [probe_branch python_framework_labels |].
    eapply ensures_bind; [apply ensures_any |].
    intros [|] _; [probe_branch java_framework_labels |].
    eapply ensures_bind; [apply ensures_any |].
    intros [|] _; [probe_branch go_framework_labels |].
    eapply ensures_bind; [apply ensures_any |].
    intros [|] _; [apply ensures_ret; in_table |].
    eapply ensures_bind; [apply ensures_any |].
    intros [|] _; [probe_branch csharp_framework_labels |].
    eapply ensures_bind; [apply ensures_any |].
    intros [|] _; [probe_branch php_framework_labels |].
    apply ensures_ret. in_table.
Qed.

Lemma classifier_raises p files w v e :
  package_json files = Some v -> truthy v = true ->
  _package_json_rules v = inl e ->
  _detect_language_and_framework p files w = (inl e, w).
Proof.
  intros Hv Ht He. unfold _detect_language_and_framework.
  rewrite Hv, Ht. unfold liftE at 1. unfold bind at 1. rewrite He.
  reflexivity.
Qed.

Lemma detect_raises_what_classifier_raises p w e :
  _detect_language_and_framework p (manifests p w) w = (inl e, w) ->
  detect p w = (inl e, w).
Proof.
  intros H. pose proof (detect_run p w) as R. rewrite H in R. exact R.
Qed.

Lemma php_probe_returns p w :
  fs_load_json (path_join p "composer.json") w = None ->
  returns_at w (_detect_php_framework p).
Proof.
  intros H. unfold _detect_php_framework.
  apply returns_at_bind; [apply returns_at_safe, safe_file_exists |].
  intros [|] _; [apply returns_at_ret |].
  apply returns_at_bind; [apply returns_at_safe, safe_file_exists |].
  intros [|] _; [| apply returns_at_ret].
  apply returns_at_bind; [apply returns_at_safe, safe_read_composer_json |].
  intros a Ha. rewrite _read_composer_json_run in Ha. injection Ha as <-.
  simpl. rewrite H. apply returns_at_ret.
Qed.

Lemma safe_exists_or p a b :
  safe (orM (_file_exists (W := W) p a) (_file_exists p b)).
Proof. apply safe_orM; apply safe_file_exists. Qed.

Lemma safe_flag_or (flag : bool) (m : M W bool) :
  safe m -> safe (orM (ret flag) m).
Proof. intros H. apply safe_orM; [apply safe_ret | exact H]. Qed.

Lemma classifier_returns_without_json p w files :
  truthy_json (package_json files) = false ->
  fs_load_json (path_join p "composer.json") w = None ->
  returns_at w (_detect_language_and_framework p files).
Proof.
  intros Hpkg Hphp. unfold _detect_language_and_framework.
  assert (Hfirst :
    match package_json files with
    | Some v => if truthy v then liftE (_package_json_rules v) else ret None
    | None => ret None
    end w = (inr None, w)).
  { destruct (package_json files) as [v |]; [| reflexivity].
    simpl in Hpkg. rewrite Hpkg. reflexivity. }
  unfold returns_at. rewrite (bind_run _ _ _ _ _ Hfirst).
  apply returns_at_bind;
    [apply returns_at_safe, safe_flag_or, safe_exists_or |].
  intros [|] _.
  { apply returns_at_bind;
      [apply returns_at_safe, safe_detect_python_framework |].
    intros; apply returns_at_ret. }
  apply returns_at_bind;
    [apply returns_at_safe, safe_flag_or, safe_exists_or |].
  intros [|] _.
  { apply returns_at_bind;
      [apply returns_at_safe, safe_detect_java_framework |].
    intros; apply returns_at_ret. }
  apply returns_at_bind;
    [apply returns_at_safe, safe_flag_or, safe_file_exists |].
  intros [|] _.
  { apply returns_at_bind;
      [apply returns_at_safe, safe_detect_go_framework |].
    intros; apply returns_at_ret. }
  apply returns_at_bind.
  { apply returns_at_safe. repeat apply safe_orM; apply safe_file_exists. }
  intros [|] _; [apply returns_at_ret |].
  apply returns_at_bind;
    [apply returns_at_safe, safe_flag_or, safe_file_exists |].
  intros [|] _.
  { apply returns_at_bind;
      [apply returns_at_safe, safe_detect_csharp_framework |].
    intros; apply returns_at_ret. }
  apply returns_at_bind;
    [apply returns_at_safe, safe_flag_or, safe_file_exists |].
  intros [|] _; [| apply returns_at_ret].
  apply returns_at_bind; [apply php_probe_returns; exact Hphp |].
  intros; apply returns_at_ret.
Qed.
End DetectionFacts.

(** X1.  The six manifest readers and [_file_exists] never raise and never
    change the tree: each returns [None] (or [False]) exactly when the
    underlying open, parse or glob fails, and what was read otherwise; for
    [requirements.txt] that is the list of the stripped lines that are not
    blank and do not start with [#]. *)
Theorem readers_degrade_to_absent {W : Type} {FS : FileSystem W} {L : PyLib}
    (p : string) (w : W) :
  ProjectDetector._read_package_json p w
  = (inr (fs_load_json (path_join p "package.json") w), w)
  /\ ProjectDetector._read_composer_json p w
     = (inr (fs_load_json (path_join p "composer.json") w), w)
  /\ ProjectDetector._read_pom_xml p w
     = (inr (fs_read (path_join p "pom.xml") w), w)
  /\ ProjectDetector._read_go_mod p w
     = (inr (fs_read (path_join p "go.mod") w), w)
  /\ ProjectDetector._read_requirements_txt p w
     = (inr (option_map
               (fun f =>
                  map str_strip
                      (filter (fun line => negb (str_strip line =? "")
                                           && negb (startswith line "#"))
                              (file_lines f)))
               (fs_read (path_join p "requirements.txt") w)), w)
  /\ ProjectDetector._read_csproj p w
     = (inr match fs_glob p "*.csproj" w with
            | Some (first :: _) => fs_read first w
            | _ => None
            end, w)
  /\ forall pattern,
       ProjectDetector._file_exists p pattern w
       = (inr match fs_glob p pattern w with
              | Some (_ :: _) => true
              | _ => false
              end, w).
Proof.
  split; [apply _read_package_json_run |].
  split; [apply _read_composer_json_run |].
  split; [apply _read_pom_xml_run |].
  split; [apply _read_go_mod_run |].
  split; [apply _read_requirements_txt_run |].
  split; [apply _read_csproj_run |].
  intros pattern. apply _file_exists_run.
Qed.

(** X2.  When [package.json] loads as a truthy value that is not a dict (a
    non-empty list or string, a non-zero number, [true]), [detect] raises
    [AttributeError] and leaves the tree unchanged. *)
Theorem detect_raises_on_non_dict_manifest
    {W : Type} {FS : FileSystem W} {L : PyLib}
    (p : string) (w : W) (v : json) :
  fs_load_json (path_join p "package.json") w = Some v ->
  truthy v = true ->
  is_dict v = false ->
  ProjectDetector.detect p w = (inl AttributeError, w).
Proof.
  intros Hload Ht Hd. apply detect_raises_what_classifier_raises.
  apply (classifier_raises p (manifests p w) w v); [exact Hload | exact Ht |].
  destruct v; try reflexivity. discriminate.
Qed.

Lemma detect_raises_on_non_dict_manifest_witness :
  fs_load_json (path_join "proj" "package.json") Fixtures.array_manifest_tree
  = Some (JArr [JNum 1])
  /\ truthy (JArr [JNum 1]) = true
  /\ is_dict (JArr [JNum 1]) = false
  /\ ProjectDetector.detect "proj" Fixtures.array_manifest_tree
     = (inl AttributeError, Fixtures.array_manifest_tree).
Proof.
  repeat (split; [reflexivity |]).
  apply (detect_raises_on_non_dict_manifest "proj"
           Fixtures.array_manifest_tree (JArr [JNum 1])); reflexivity.
Defined.

(** X3.  When [package.json] is a dict whose ['dependencies'] or
    ['devDependencies'] entry is not a dict, merging the two raises
    [TypeError] and so does [detect], leaving the tree unchanged. *)
Theorem detect_raises_on_non_dict_dependencies
    {W : Type} {FS : FileSystem W} {L : PyLib}
    (p : string) (w : W) (entries : dict) (x : json) :
  fs_load_json (path_join p "package.json") w = Some (JObj entries) ->
  dict_get entries "dependencies" = Some x
  \/ dict_get entries "devDependencies" = Some x ->
  is_dict x = false ->
  ProjectDetector.all_deps (JObj entries) = inl TypeError
  /\ ProjectDetector.detect p w = (inl TypeError, w).
Proof.
  intros Hload Hx Hd.
  assert (Hall : ProjectDetector.all_deps (JObj entries) = inl TypeError).
  { unfold ProjectDetector.all_deps, py_get. simpl.
    destruct Hx as [Hx | Hx]; rewrite Hx.
    - destruct x; try reflexivity. discriminate.
    - destruct (dict_get entries "dependencies") as [[| | | | | a] |];
        destruct x; try reflexivity; discriminate. }
  split; [exact Hall |].
  apply detect_raises_what_classifier_raises.
  apply (classifier_raises p (manifests p w) w (JObj entries));
    [exact Hload | |].
  - destruct entries; [destruct Hx; discriminate | reflexivity].
  - unfold ProjectDetector._package_json_rules. rewrite Hall. reflexivity.
Qed.

Lemma detect_raises_on_non_dict_dependencies_witness :
  fs_load_json (path_join "proj" "package.json") Fixtures.list_deps_tree
  = Some Fixtures.list_deps_manifest
  /\ dict_get [("name", JStr "app"); ("dependencies", JArr [JStr "react"])]
       "dependencies" = Some (JArr [JStr "react"])
  /\ is_dict (JArr [JStr "react"]) = false
  /\ ProjectDetector.all_deps Fixtures.list_deps_manifest = inl TypeError
  /\ ProjectDetector.detect "proj" Fixtures.list_deps_tree
     = (inl TypeError, Fixtures.list_deps_tree).
Proof.
  repeat (split; [reflexivity |]).
  apply (detect_raises_on_non_dict_dependencies "proj" Fixtures.list_deps_tree
           [("name", JStr "app"); ("dependencies", JArr [JStr "react"])]
           (JArr [JStr "react"])).
  - reflexivity.
  - left. reflexivity.
  - reflexivity.
Defined.

(** X4.  When [package.json] is missing, unparsable or falsy and
    [composer.json] cannot be loaded, [detect] returns a profile: neither
    missing nor unreadable files make it raise. *)
Theorem detect_returns_without_json_manifests
    {W : Type} {FS : FileSystem W} {L : PyLib} (p : string) (w : W) :
  truthy_json (fs_load_json (path_join p "package.json") w) = false ->
  fs_load_json (path_join p "composer.json") w = None ->
  exists info, ProjectDetector.detect p w = (inr info, w) /\ path info = p.
Proof.
  intros Hpkg Hphp.
  destruct (classifier_returns_without_json p w (manifests p w) Hpkg Hphp)
    as [d Hd].
  pose proof (detect_run p w) as R. rewrite Hd in R. simpl in R.
  destruct R as (mono & micro & docker & t & tools & strategies & R).
  eexists. split; [exact R | reflexivity].
Qed.

Lemma detect_returns_without_json_manifests_witness :
  truthy_json (fs_load_json (path_join "proj" "package.json")
                 Scripted.services_with_tests) = false
  /\ fs_load_json (path_join "proj" "composer.json")
       Scripted.services_with_tests = None
  /\ exists info,
       ProjectDetector.detect "proj" Scripted.services_with_tests
       = (inr info, Scripted.services_with_tests)
       /\ path info = "proj".
Proof.
  repeat (split; [reflexivity |]).
  apply (detect_returns_without_json_manifests "proj"
           Scripted.services_with_tests); reflexivity.
Defined.

(** X5.  Every profile [detect] returns carries one of the 24 (language,
    framework, type) triples the classifier can write: the language is one
    of the nine known ones, the type key is present, and the framework is a
    label of that language ([None] only for the unknown language). *)
Theorem detect_classification_in_table
    {W : Type} {FS : FileSystem W} {L : PyLib}
    (p : string) (w : W) (info : ProjectInfo) :
  fst (ProjectDetector.detect p w) = inr info ->
  exists t,
    type info = Some t
    /\ In (language info, framework info, t) classifications
    /\ In (language info)
          ["javascript"; "typescript"; "python"; "java"; "go"; "c";
           "csharp"; "php"; "unknown"]
    /\ (framework info = None -> language info = "unknown").
Proof.
  intros H. destruct (detect_inv p w info H) as (d & Hd & ->).
  pose proof (classifier_in_table p (manifests p w) _ _ _ Hd) as Hin.
  exists (det_type d). split; [reflexivity |].
  split; [exact Hin |].
  change (language (assembled p d (structure_of p w)
                      (testing_of p (det_language d) w)
                      (tools_of p w) (strategies_of p w)))
    with (det_language d).
  change (framework (assembled p d (structure_of p w)
                       (testing_of p (det_language d) w)
                       (tools_of p w) (strategies_of p w)))
    with (det_framework d).
  destruct d as [l f t]. simpl in *.
  repeat (destruct Hin as [Hin | Hin];
          [injection Hin as <- <- <-;
           split; [in_table | intros; first [reflexivity | discriminate]] |]).
  contradiction.
Qed.

Lemma detect_classification_in_table_witness :
  fst (ProjectDetector.detect "proj" Fixtures.docker_tree)
  = inr (assembled "proj"
           {| det_language := "go"; det_framework := Some "gin";
              det_type := "backend" |}
           (structure_of "proj" Fixtures.docker_tree)
           true ["docker"] ["docker"; "kubernetes"])
  /\ exists t,
       Some "backend" = Some t
       /\ In ("go", Some "gin", t) classifications
       /\ In "go" ["javascript"; "typescript"; "python"; "java"; "go"; "c";
                   "csharp"; "php"; "unknown"]
       /\ (Some "gin" = None -> "go" = "unknown").
Proof.
  split; [reflexivity |].
  apply (detect_classification_in_table "proj" Fixtures.docker_tree
           (assembled "proj"
              {| det_language := "go"; det_framework := Some "gin";
                 det_type := "backend" |}
              (structure_of "proj" Fixtures.docker_tree)
              true ["docker"] ["docker"; "kubernetes"])).
  reflexivity.
Defined.

(** X6.  The complexity label of a profile returned by [detect] depends on
    the monorepo and microservices flags alone: ['high'] when both are set,
    ['medium'] when exactly one is, ['low'] when none is.  Neither the
    tests found nor any dependency can change it. *)
Theorem detect_complexity_by_flags {W : Type} {FS : FileSystem W} {L : PyLib}
    (p : string) (w : W) (info : ProjectInfo) :
  fst (ProjectDetector.detect p w) = inr info ->
  complexity info =
  if monorepo (structure info) && microservices (structure info) then "high"
  else if monorepo (structure info) || microservices (structure info)
       then "medium"
       else "low".
Proof.
  intros H. destruct (detect_inv p w info H) as (d & _ & ->).
  rewrite assembled_complexity.
  change (structure (assembled p d (structure_of p w)
                       (testing_of p (det_language d) w)
                       (tools_of p w) (strategies_of p w)))
    with (structure_of p w).
  destruct (monorepo (structure_of p w)),
    (microservices (structure_of p w)); reflexivity.
Qed.

Lemma detect_complexity_by_flags_witness :
  fst (ProjectDetector.detect "proj" Fixtures.docker_tree)
  = inr (assembled "proj"
           {| det_language := "go"; det_framework := Some "gin";
              det_type := "backend" |}
           (structure_of "proj" Fixtures.docker_tree)
           true ["docker"] ["docker"; "kubernetes"])
  /\ complexity
       (assembled "proj"
          {| det_language := "go"; det_framework := Some "gin";
             det_type := "backend" |}
          (structure_of "proj" Fixtures.docker_tree)
          true ["docker"] ["docker"; "kubernetes"])
     = "high".
Proof.
  split; [reflexivity |].
  apply (detect_complexity_by_flags "proj" Fixtures.docker_tree).
  reflexivity.
Defined.

(** X7.  The [testing] flag of a profile returned by [detect] is set exactly
    when one of the glob patterns listed for its language matches in the
    tree; a language without a list of its own (typescript, c, php,
    unknown) is searched with the JavaScript patterns. *)
Theorem detect_testing_iff_pattern {W : Type} {FS : FileSystem W} {L : PyLib}
    (p : string) (w : W) (info : ProjectInfo) :
  fst (ProjectDetector.detect p w) = inr info ->
  (testing info = true <->
   exists pattern,
     In pattern (ProjectDetector.test_patterns (language info))
     /\ exists_in p pattern w = true)
  /\ (~ In (language info) ["javascript"; "python"; "java"; "go"; "csharp"] ->
      ProjectDetector.test_patterns (language info)
      = ["**/*.test.js"; "**/*.spec.js"; "**/tests/**"; "**/__tests__/**"]).
Proof.
  intros H. destruct (detect_inv p w info H) as (d & _ & ->).
  change (testing (assembled p d (structure_of p w)
                     (testing_of p (det_language d) w)
                     (tools_of p w) (strategies_of p w)))
    with (testing_of p (det_language d) w).
  change (language (assembled p d (structure_of p w)
                      (testing_of p (det_language d) w)
                      (tools_of p w) (strategies_of p w)))
    with (det_language d).
  split.
  - unfold testing_of. rewrite existsb_exists. reflexivity.
  - intros Hn. unfold ProjectDetector.test_patterns.
    repeat match goal with
           | |- context [?l =? ?s] =>
               destruct (String.eqb_spec l s) as [E | _];
               [exfalso; apply Hn; rewrite E; in_table |]
           end.
    reflexivity.
Qed.

Lemma detect_testing_iff_pattern_witness :
  fst (ProjectDetector.detect "proj" Scripted.services_with_tests)
  = inr Sample.services_profile
  /\ (testing Sample.services_profile = true <->
      exists pattern,
        In pattern (ProjectDetector.test_patterns
                      (language Sample.services_profile))
        /\ exists_in "proj" pattern Scripted.services_with_tests = true)
  /\ (~ In (language Sample.services_profile)
          ["javascript"; "python"; "java"; "go"; "csharp"] ->
      ProjectDetector.test_patterns (language Sample.services_profile)
      = ["**/*.test.js"; "**/*.spec.js"; "**/tests/**"; "**/__tests__/**"]).
Proof.
  split; [reflexivity |].
  apply (detect_testing_iff_pattern "proj" Scripted.services_with_tests).
  reflexivity.
Defined.

(** X8.  In a profile returned by [detect], ['docker'] is a build tool
    exactly when it is a deployment strategy, and then the structure is
    flagged dockerized; the build tools are drawn without repetition from
    webpack, vite, docker, and the deployment strategies from docker,
    kubernetes. *)
Theorem detect_docker_fields_agree {W : Type} {FS : FileSystem W} {L : PyLib}
    (p : string) (w : W) (info : ProjectInfo) :
  fst (ProjectDetector.detect p w) = inr info ->
  (In "docker" (build_tools info) <-> In "docker" (deployment info))
  /\ (In "docker" (build_tools info) -> dockerized (structure info) = true)
  /\ NoDup (build_tools info)
  /\ NoDup (deployment info)
  /\ incl (build_tools info) ["webpack"; "vite"; "docker"]
  /\ incl (deployment info) ["docker"; "kubernetes"].
Proof.
  intros H. destruct (detect_inv p w info H) as (d & _ & ->).
  change (build_tools (assembled p d (structure_of p w)
                         (testing_of p (det_language d) w)
                         (tools_of p w) (strategies_of p w)))
    with (tools_of p w).
  change (deployment (assembled p d (structure_of p w)
                        (testing_of p (det_language d) w)
                        (tools_of p w) (strategies_of p w)))
    with (strategies_of p w).
  change (structure (assembled p d (structure_of p w)
                       (testing_of p (det_language d) w)
                       (tools_of p w) (strategies_of p w)))
    with (structure_of p w).
  unfold tools_of, strategies_of, structure_of. simpl dockerized.
  destruct (exists_in p "webpack.config.js" w),
    (exists_in p "vite.config.js" w), (exists_in p "Dockerfile" w),
    (exists_in p "k8s" w || exists_in p "kubernetes" w); simpl;
    (split; [split; intros Hd; simpl in Hd; intuition discriminate |]);
    (split; [intros Hd; simpl in Hd; intuition discriminate |]);
    (split; [repeat constructor; simpl; intuition discriminate |]);
    (split; [repeat constructor; simpl; intuition discriminate |]);
    split; intros x Hx; simpl in *; tauto.
Qed.

Lemma detect_docker_fields_agree_witness :
  fst (ProjectDetector.detect "proj" Fixtures.docker_tree)
  = inr (assembled "proj"
           {| det_language := "go"; det_framework := Some "gin";
              det_type := "backend" |}
           (structure_of "proj" Fixtures.docker_tree)
           true ["docker"] ["docker"; "kubernetes"])
  /\ (In "docker" ["docker"] <-> In "docker" ["docker"; "kubernetes"])
  /\ (In "docker" ["docker"] ->
      dockerized (structure_of "proj" Fixtures.docker_tree) = true)
  /\ NoDup ["docker"]
  /\ NoDup ["docker"; "kubernetes"]
  /\ incl ["docker"] ["webpack"; "vite"; "docker"]
  /\ incl ["docker"; "kubernetes"] ["docker"; "kubernetes"].
Proof.
  split; [reflexivity |].
  apply (detect_docker_fields_agree "proj" Fixtures.docker_tree
           (assembled "proj"
              {| det_language := "go"; det_framework := Some "gin";
                 det_type := "backend" |}
              (structure_of "proj" Fixtures.docker_tree)
              true ["docker"] ["docker"; "kubernetes"])).
  reflexivity.
Defined.

(** X9.  A package manifest that is falsy (the empty dict) or matches none
    of the package rules does not end classification: the classifier
    answers as it would without the manifest, from the Python, JVM, Go, C,
    C# and PHP markers. *)
Theorem unmatched_manifest_falls_through
    {W : Type} {FS : FileSystem W} {L : PyLib}
    (p : string) (files : ManifestFiles) (v : json) (w : W) :
  package_json files = Some v ->
  truthy v = false \/ ProjectDetector._package_json_rules v = inr None ->
  ProjectDetector._detect_language_and_framework p files w
  = ProjectDetector._detect_language_and_framework p (without_package files) w.
Proof.
  intros Hv Hrules. unfold ProjectDetector._detect_language_and_framework.
  assert (Hfirst :
    match package_json files with
    | Some v => if truthy v
                then liftE (ProjectDetector._package_json_rules v)
                else ret None
    | None => ret None
    end w = (inr None, w)).
  { rewrite Hv. destruct (truthy v) eqn:Ht; [| reflexivity].
    destruct Hrules as [Hf | Hn]; [discriminate |].
    unfold liftE. rewrite Hn. reflexivity. }
  rewrite (bind_run _ _ _ _ _ Hfirst). reflexivity.
Qed.

Lemma unmatched_manifest_falls_through_witness :
  package_json (manifests "proj" Fixtures.mixed_tree)
  = Some Fixtures.lodash_manifest
  /\ ProjectDetector._package_json_rules Fixtures.lodash_manifest = inr None
  /\ ProjectDetector._detect_language_and_framework "proj"
       (manifests "proj" Fixtures.mixed_tree) Fixtures.mixed_tree
     = ProjectDetector._detect_language_and_framework "proj"
         (without_package (manifests "proj" Fixtures.mixed_tree))
         Fixtures.mixed_tree
  /\ fst (ProjectDetector._detect_language_and_framework "proj"
            (manifests "proj" Fixtures.mixed_tree) Fixtures.mixed_tree)
     = inr {| det_language := "python"; det_framework := Some "django";
              det_type := "backend" |}.
Proof.
  split; [reflexivity |]. split; [reflexivity |].
  split; [| reflexivity].
  apply (unmatched_manifest_falls_through "proj"
           (manifests "proj" Fixtures.mixed_tree) Fixtures.lodash_manifest
           Fixtures.mixed_tree).
  - reflexivity.
  - right. reflexivity.
Defined.

(** * The step catalog and the templates *)

(** X10.  Each of the four per-language catalogs (setup, install, test,
    build) holds at most one step, whatever the profile. *)
Theorem catalog_at_most_one_step (info : ProjectInfo) :
  (length (PipelineGenerator._get_language_setup_steps info) <= 1)%nat
  /\ (length (PipelineGenerator._get_dependency_install_steps info) <= 1)%nat
  /\ (length (PipelineGenerator._get_test_steps info) <= 1)%nat
  /\ (length (PipelineGenerator._get_build_steps info) <= 1)%nat.
Proof.
  unfold PipelineGenerator._get_language_setup_steps,
    PipelineGenerator._get_dependency_install_steps,
    PipelineGenerator._get_test_steps, PipelineGenerator._get_build_steps.
  repeat split;
    repeat match goal with
           | |- context [if ?b then _ else _] => destruct b
           end; simpl; lia.
Qed.

Lemma test_steps_run_tests info :
  existsb Doc.runs_tests (PipelineGenerator._get_test_steps info)
  = existsb (String.eqb (language info))
            ["javascript"; "typescript"; "python"; "java"; "go"; "csharp"].
Proof.
  unfold PipelineGenerator._get_test_steps. simpl existsb at 2.
  destruct (language info =? "javascript"), (language info =? "typescript"),
    (language info =? "python"), (language info =? "java"),
    (language info =? "go"), (language info =? "csharp"); reflexivity.
Qed.

(** X11.  The build job of the GitHub Actions workflow runs a test command
    exactly when the profile's [testing] flag is set and its language is one
    of the six that have a test command (javascript, typescript, python,
    java, go, csharp). *)
Theorem github_tests_iff_testing (info : ProjectInfo) (cfg : Config.t) :
  existsb Doc.runs_tests
    (Doc.github_steps (PipelineGenerator.github_actions_workflow info cfg)
       "build")
  = testing info
    && existsb (String.eqb (language info))
               ["javascript"; "typescript"; "python"; "java"; "go"; "csharp"].
Proof.
  assert (E : Doc.github_steps
                (PipelineGenerator.github_actions_workflow info cfg) "build"
              = PipelineGenerator._generate_build_steps info cfg)
    by (unfold PipelineGenerator.github_actions_workflow;
        destruct (Config.deployment_enabled cfg); reflexivity).
  rewrite E. unfold PipelineGenerator._generate_build_steps.
  destruct (testing info), (dockerized (structure info));
    rewrite ?existsb_app, ?setup_steps_run_no_tests,
      ?install_steps_run_no_tests, ?build_steps_run_no_tests,
      ?test_steps_run_tests;
    simpl; rewrite ?orb_false_r; reflexivity.
Qed.

(** X12.  The GitHub Actions workflow has the job [build], followed by the
    job [deploy] exactly when deployment is enabled; the deploy job needs
    [build] and runs only on a push to [main]. *)
Theorem github_jobs_shape (info : ProjectInfo) (cfg : Config.t) :
  let workflow := PipelineGenerator.github_actions_workflow info cfg in
  (exists jobs,
     Doc.get workflow "jobs" = Some (YMap jobs)
     /\ map fst jobs = if Config.deployment_enabled cfg
                       then ["build"; "deploy"] else ["build"])
  /\ Doc.github_steps workflow "build"
     = PipelineGenerator._generate_build_steps info cfg
  /\ (Config.deployment_enabled cfg = true ->
      exists deploy,
        option_map (fun jobs => Doc.get jobs "deploy") (Doc.get workflow "jobs")
        = Some (Some deploy)
        /\ Doc.get deploy "needs" = Some (YStr "build")
        /\ Doc.get deploy "if"
           = Some (YStr "github.ref == 'refs/heads/main' && github.event_name == 'push'")
        /\ Doc.items_at deploy "steps"
           = PipelineGenerator._generate_deploy_steps info cfg).
Proof.
  unfold PipelineGenerator.github_actions_workflow.
  destruct (Config.deployment_enabled cfg); simpl.
  - split; [eexists; split; reflexivity |]. split; [reflexivity |].
    intros _. eexists. repeat split.
  - split; [eexists; split; reflexivity |]. split; [reflexivity |].
    discriminate.
Qed.

(** X13.  The GitLab CI pipeline always declares the stages build, test and
    deploy and always has the jobs [build] and [test]; the job [deploy] is
    there exactly when deployment is enabled, and its script is the
    placeholder echo whatever strategy or image name the config gives. *)
Theorem gitlab_pipeline_shape (info : ProjectInfo) (cfg : Config.t) :
  let pipeline := PipelineGenerator.gitlab_ci_pipeline info cfg in
  Doc.items_at pipeline "stages" = [YStr "build"; YStr "test"; YStr "deploy"]
  /\ (exists entries,
        pipeline = YMap entries
        /\ map fst entries
           = (["stages"; "variables"; "build"; "test"]
              ++ if Config.deployment_enabled cfg then ["deploy"] else [])%list)
  /\ (Config.deployment_enabled cfg = true ->
      Doc.gitlab_script pipeline "deploy"
      = [YStr ("echo " ++ dq ++ "Deploy script would go here" ++ dq)]).
Proof.
  unfold PipelineGenerator.gitlab_ci_pipeline.
  destruct (Config.deployment_enabled cfg); simpl.
  - split; [reflexivity |]. split; [eexists; split; reflexivity |].
    intros _. reflexivity.
  - split; [reflexivity |]. split; [eexists; split; reflexivity |].
    discriminate.
Qed.

(** X14.  The GitLab CI template knows five languages.  For any other
    language the detector can report (typescript, c, php, unknown) the
    build and test jobs only echo [Unknown stage] and run on the
    [ubuntu:latest] image. *)
Theorem gitlab_unknown_languages (info : ProjectInfo) :
  ~ In (language info) ["javascript"; "python"; "java"; "go"; "csharp"] ->
  PipelineGenerator._get_gitlab_script "build" info
  = ["echo " ++ dq ++ "Unknown stage" ++ dq]
  /\ PipelineGenerator._get_gitlab_script "test" info
     = ["echo " ++ dq ++ "Unknown stage" ++ dq]
  /\ PipelineGenerator._get_gitlab_image info = "ubuntu:latest".
Proof.
  intros Hn.
  assert (H : forall s,
             In s ["javascript"; "python"; "java"; "go"; "csharp"] ->
             (language info =? s) = false).
  { intros s Hs. apply String.eqb_neq. intros E. apply Hn. rewrite E.
    exact Hs. }
  unfold PipelineGenerator._get_gitlab_script,
    PipelineGenerator._get_gitlab_image.
  rewrite (H "javascript"), (H "python"), (H "java"), (H "go"), (H "csharp")
    by in_table.
  repeat split.
Qed.

Lemma gitlab_unknown_languages_witness :
  ~ In (language Fixtures.ts_profile)
       ["javascript"; "python"; "java"; "go"; "csharp"]
  /\ PipelineGenerator._get_gitlab_script "build" Fixtures.ts_profile
     = ["echo " ++ dq ++ "Unknown stage" ++ dq]
  /\ PipelineGenerator._get_gitlab_script "test" Fixtures.ts_profile
     = ["echo " ++ dq ++ "Unknown stage" ++ dq]
  /\ PipelineGenerator._get_gitlab_image Fixtures.ts_profile = "ubuntu:latest".
Proof.
  assert (H : ~ In (language Fixtures.ts_profile)
                   ["javascript"; "python"; "java"; "go"; "csharp"]).
  { simpl. intuition discriminate. }
  split; [exact H |].
  exact (gitlab_unknown_languages Fixtures.ts_profile H).
Defined.

(** * Writing the pipeline *)

Section WritingFacts.
Context {W : Type} {FS : FileSystem W} {L : PyLib}.
Import PipelineGenerator.

(** The template of a platform serialises that platform's document. *)
Lemma template_of_document platform info cfg doc :
  Doc.document platform info cfg = Some doc ->
  exists t,
    templates platform = Some t
    /\ content (t info cfg) = yaml_dump doc
    /\ format (t info cfg) = "yaml"
    /\ In (filename (t info cfg))
          [".github/workflows/ci.yml"; ".gitlab-ci.yml"; "Jenkinsfile"].
Proof.
  unfold Doc.document, templates.
  destruct (platform =? "github-actions");
    [intros H; injection H as <-; eexists; repeat split; in_table |].
  destruct (platform =? "gitlab-ci");
    [intros H; injection H as <-; eexists; repeat split; in_table |].
  destruct (platform =? "jenkins");
    [intros H; injection H as <-; eexists; repeat split; in_table |].
  discriminate.
Qed.

End WritingFacts.

(** X15.  For a known platform (GitHub Actions when the config names none),
    if the directory can be created and the file written, [generate]
    creates the directory of the output path, writes there the
    [yaml.dump] of the platform's document and nothing else, and returns
    that text, the output path and the platform. *)
Theorem generate_writes_serialised_document
    {W : Type} {FS : FileSystem W} {L : PyLib}
    (info : ProjectInfo) (cfg : Config.t) (w : W)
    (platform : string) (doc : yaml) :
  platform = match Config.platform cfg with
             | Some p => p
             | None => "github-actions"
             end ->
  Doc.document platform info cfg = Some doc ->
  exists t,
    PipelineGenerator.content (t info cfg) = yaml_dump doc
    /\ PipelineGenerator.format (t info cfg) = "yaml"
    /\ forall w1 w2,
         let out := PipelineGenerator.output_path_of (t info cfg) info cfg in
         fs_makedirs (dirname out) w = (true, w1) ->
         fs_write out (yaml_dump doc) w1 = (true, w2) ->
         PipelineGenerator.generate info cfg w
         = (inr {| PipelineGenerator.pipeline := t info cfg;
                   PipelineGenerator.output_file := out;
                   PipelineGenerator.platform := platform |}, w2).
Proof.
  intros Hp Hdoc.
  destruct (template_of_document platform info cfg doc Hdoc)
    as (t & Ht & Hc & Hf & _).
  exists t. split; [exact Hc |]. split; [exact Hf |].
  intros w1 w2 out Hmk Hwr. subst out.
  pose proof (generate_supported_writes info cfg w t) as G.
  rewrite <- Hp in G. specialize (G Ht). cbv zeta in G.
  rewrite Hmk, Hc, Hwr in G. exact G.
Qed.

Lemma generate_writes_serialised_document_witness :
  let cfg := Sample.config "gitlab-ci" Sample.deploy_enabled in
  let doc := PipelineGenerator.gitlab_ci_pipeline Sample.untested_js cfg in
  "gitlab-ci" = match Config.platform cfg with
                | Some p => p
                | None => "github-actions"
                end
  /\ Doc.document "gitlab-ci" Sample.untested_js cfg = Some doc
  /\ exists t,
       PipelineGenerator.content (t Sample.untested_js cfg) = yaml_dump doc
       /\ PipelineGenerator.format (t Sample.untested_js cfg) = "yaml"
       /\ forall w1 w2,
            let out := PipelineGenerator.output_path_of
                         (t Sample.untested_js cfg) Sample.untested_js cfg in
            fs_makedirs (dirname out) Scripted.empty_tree = (true, w1) ->
            fs_write out (yaml_dump doc) w1 = (true, w2) ->
            PipelineGenerator.generate Sample.untested_js cfg
              Scripted.empty_tree
            = (inr {| PipelineGenerator.pipeline := t Sample.untested_js cfg;
                      PipelineGenerator.output_file := out;
                      PipelineGenerator.platform := "gitlab-ci" |}, w2).
Proof.
  intros cfg doc.
  split; [reflexivity |]. split; [reflexivity |].
  apply (generate_writes_serialised_document Sample.untested_js cfg
           Scripted.empty_tree "gitlab-ci" doc); reflexivity.
Defined.

(** X16.  For a known platform, when the directory of the output path
    cannot be created [generate] raises [OSError] without attempting the
    write (the world is the one [makedirs] left); when the directory is
    there but the write fails, it raises [OSError] as well. *)
Theorem generate_write_failures
    {W : Type} {FS : FileSystem W} {L : PyLib}
    (info : ProjectInfo) (cfg : Config.t) (w : W)
    (t : ProjectInfo -> Config.t -> PipelineGenerator.PipelineDoc) :
  PipelineGenerator.templates
    (match Config.platform cfg with
     | Some p => p
     | None => "github-actions"
     end) = Some t ->
  let out := PipelineGenerator.output_path_of (t info cfg) info cfg in
  (forall w1,
     fs_makedirs (dirname out) w = (false, w1) ->
     PipelineGenerator.generate info cfg w = (inl OSError, w1))
  /\ (forall w1 w2,
        fs_makedirs (dirname out) w = (true, w1) ->
        fs_write out (PipelineGenerator.content (t info cfg)) w1 = (false, w2) ->
        PipelineGenerator.generate info cfg w = (inl OSError, w2)).
Proof.
  intros Ht out. subst out.
  pose proof (generate_supported_writes info cfg w t Ht) as G.
  cbv zeta in G. split.
  - intros w1 Hmk. rewrite Hmk in G. exact G.
  - intros w1 w2 Hmk Hwr. rewrite Hmk, Hwr in G. exact G.
Qed.

Lemma generate_write_failures_witness :
  let cfg := Sample.config "jenkins" Sample.deploy_enabled in
  let w := {| Fixtures.tree := Scripted.empty_tree |} in
  PipelineGenerator.templates "jenkins" = Some PipelineGenerator._generate_jenkins
  /\ fs_makedirs "." w = (false, w)
  /\ PipelineGenerator.generate Sample.untested_js cfg w = (inl OSError, w).
Proof.
  intros cfg w.
  split; [reflexivity |]. split; [reflexivity |].
  destruct (generate_write_failures Sample.untested_js cfg w
              PipelineGenerator._generate_jenkins eq_refl) as [Hmk _].
  apply Hmk. reflexivity.
Defined.



(** * From the command line to the pipeline *)

(** X18.  The config that [main] builds never carries a deployment strategy
    or image name.  With [--deploy] the GitHub Actions workflow therefore
    has a deploy job with no step at all; without it neither the GitHub
    Actions workflow nor the GitLab CI pipeline has a deploy job. *)
Theorem cli_deploy_job_has_no_steps
    (info : ProjectInfo) (platform : string) (output : option string) :
  let on := Main.config platform output true in
  let off := Main.config platform output false in
  PipelineGenerator._generate_deploy_steps info on = []
  /\ Doc.has_deploy_stage "github-actions"
       (PipelineGenerator.github_actions_workflow info on) = true
  /\ Doc.github_steps (PipelineGenerator.github_actions_workflow info on)
       "deploy" = []
  /\ Doc.has_deploy_stage "github-actions"
       (PipelineGenerator.github_actions_workflow info off) = false
  /\ Doc.has_deploy_stage "gitlab-ci"
       (PipelineGenerator.gitlab_ci_pipeline info off) = false.
Proof. repeat split. Qed.

Lemma unknown_language_build_steps info cfg :
  language info = "unknown" ->
  PipelineGenerator._generate_build_steps info cfg
  = YMap [("name", YStr "Checkout"); ("uses", YStr "actions/checkout@v4")]
    :: (if dockerized (structure info)
        then PipelineGenerator._get_docker_build_steps info else []).
Proof.
  intros Hl.
  unfold PipelineGenerator._generate_build_steps,
    PipelineGenerator._get_language_setup_steps,
    PipelineGenerator._get_dependency_install_steps,
    PipelineGenerator._get_test_steps, PipelineGenerator._get_build_steps.
  rewrite Hl. simpl.
  destruct (testing info), (dockerized (structure info)); reflexivity.
Qed.

(** X19.  For a tree on which no classifier rule matches, detection
    followed by the GitHub Actions template gives a workflow named
    [None CI/CD] whose build job only checks the code out, followed by the
    two docker steps when the tree is dockerized: no setup, install, test
    or build step, even when test files were found. *)
Theorem unknown_tree_workflow {W : Type} {FS : FileSystem W} {L : PyLib}
    (p : string) (w : W) (cfg : Config.t) :
  no_rule_matches p w ->
  exists info,
    ProjectDetector.detect p w = (inr info, w)
    /\ Doc.get (PipelineGenerator.github_actions_workflow info cfg) "name"
       = Some (YStr "None CI/CD")
    /\ Doc.github_steps (PipelineGenerator.github_actions_workflow info cfg)
         "build"
       = YMap [("name", YStr "Checkout"); ("uses", YStr "actions/checkout@v4")]
         :: (if dockerized (structure info)
             then PipelineGenerator._get_docker_build_steps info else []).
Proof.
  intros H.
  destruct (detect_of_classification _ _ _ (classify_no_rule _ _ H))
    as (info & Hi & Hl & Hf & _).
  simpl in Hl, Hf. exists info. split; [exact Hi |]. split.
  - unfold PipelineGenerator.github_actions_workflow. rewrite Hf.
    reflexivity.
  - rewrite <- (unknown_language_build_steps info cfg Hl).
    unfold PipelineGenerator.github_actions_workflow.
    destruct (Config.deployment_enabled cfg); reflexivity.
Qed.

Lemma unknown_tree_workflow_witness :
  let cfg := Main.config "github-actions" None false in
  no_rule_matches "proj" Scripted.services_with_tests
  /\ exists info,
       ProjectDetector.detect "proj" Scripted.services_with_tests
       = (inr info, Scripted.services_with_tests)
       /\ Doc.get (PipelineGenerator.github_actions_workflow info cfg) "name"
          = Some (YStr "None CI/CD")
       /\ Doc.github_steps
            (PipelineGenerator.github_actions_workflow info cfg) "build"
          = YMap [("name", YStr "Checkout");
                  ("uses", YStr "actions/checkout@v4")]
            :: (if dockerized (structure info)
                then PipelineGenerator._get_docker_build_steps info else []).
Proof.
  intros cfg.
  assert (H : no_rule_matches "proj" Scripted.services_with_tests).
  { unfold no_rule_matches. simpl. repeat split; reflexivity. }
  split; [exact H |].
  exact (unknown_tree_workflow "proj" Scripted.services_with_tests cfg H).
Defined.

(** * Recommendations *)

(** X20.  [get_refactoring_recommendations] gives at most one
    recommendation of each type, in the order complexity, dependencies,
    testing: the first exactly when the complexity is ['high'], the second
    exactly when there are more than 100 dependencies, the third exactly
    when [testing] is unset; the second has priority ['medium'], the others
    ['high']. *)
Theorem recommendations_by_type (info : ProjectInfo) :
  let rs := AmazingAutomata.get_refactoring_recommendations info in
  map (fun r => (AmazingAutomata.rec_type r, AmazingAutomata.priority r)) rs
  = ((if complexity info =? "high" then [("complexity", "high")] else [])
     ++ (if (100 <? length (dependencies info))%nat
         then [("dependencies", "medium")] else [])
     ++ (if testing info then [] else [("testing", "high")]))%list
  /\ NoDup (map AmazingAutomata.rec_type rs)
  /\ (length rs <= 3)%nat
  /\ (rs = [] <->
      complexity info <> "high"
      /\ (length (dependencies info) <= 100)%nat
      /\ testing info = true).
Proof.
  unfold AmazingAutomata.get_refactoring_recommendations.
  destruct (String.eqb_spec (complexity info) "high") as [Hc | Hc];
    destruct (Nat.ltb_spec 100 (length (dependencies info))) as [Hd | Hd];
    destruct (testing info); simpl;
    (split; [reflexivity |]);
    (split; [repeat constructor; simpl; intuition discriminate |]);
    (split; [lia |]);
    split; intros H;
    try discriminate;
    try (destruct H as (H1 & H2 & H3); first [contradiction | lia | discriminate]);
    repeat split; first [assumption | lia | reflexivity].
Qed.

(** X21.  For a profile returned by [detect], the recommendations are fixed
    by three flags: the complexity one appears exactly when the tree is both
    a monorepo and has a services directory, the testing one exactly when no
    test file was found, and the dependencies one never. *)
Theorem detected_recommendations {W : Type} {FS : FileSystem W} {L : PyLib}
    (p : string) (w : W) (info : ProjectInfo) :
  fst (ProjectDetector.detect p w) = inr info ->
  map AmazingAutomata.rec_type
      (AmazingAutomata.get_refactoring_recommendations info)
  = ((if monorepo (structure info) && microservices (structure info)
      then ["complexity"] else [])
     ++ (if testing info then [] else ["testing"]))%list.
Proof.
  intros H. destruct (detect_inv p w info H) as (d & _ & ->).
  unfold AmazingAutomata.get_refactoring_recommendations.
  rewrite assembled_complexity.
  change (structure (assembled p d (structure_of p w)
                       (testing_of p (det_language d) w)
                       (tools_of p w) (strategies_of p w)))
    with (structure_of p w).
  change (testing (assembled p d (structure_of p w)
                     (testing_of p (det_language d) w)
                     (tools_of p w) (strategies_of p w)))
    with (testing_of p (det_language d) w).
  change (dependencies (assembled p d (structure_of p w)
                          (testing_of p (det_language d) w)
                          (tools_of p w) (strategies_of p w)))
    with (@nil string).
  destruct (monorepo (structure_of p w)),
    (microservices (structure_of p w)),
    (testing_of p (det_language d) w); reflexivity.
Qed.

Lemma detected_recommendations_witness :
  fst (ProjectDetector.detect "proj" Scripted.empty_tree)
  = inr Sample.unknown_profile
  /\ map AmazingAutomata.rec_type
       (AmazingAutomata.get_refactoring_recommendations Sample.unknown_profile)
     = ["testing"].
Proof.
  split; [reflexivity |].
  apply (detected_recommendations "proj" Scripted.empty_tree
           Sample.unknown_profile).
  reflexivity.
Defined.

(** * The merged dependencies *)

(** X22.  When [all_deps] raises nothing, the manifest is a dict whose
    ['dependencies'] and ['devDependencies'] entries are dicts (or absent),
    [all_deps] is the merge of the two, and a name is in it exactly when it
    is a key of one of them. *)
Theorem all_deps_is_the_union (pkg : json) (deps : dict) :
  ProjectDetector.all_deps pkg = inr deps ->
  is_dict pkg = true
  /\ exists a b,
       py_get pkg "dependencies" (JObj []) = inr (JObj a)
       /\ py_get pkg "devDependencies" (JObj []) = inr (JObj b)
       /\ deps = dict_merge a b
       /\ forall k, dict_mem k deps = dict_mem k a || dict_mem k b.
Proof.
  unfold ProjectDetector.all_deps. intros H.
  destruct pkg as [| | | | | entries]; try discriminate.
  split; [reflexivity |].
  destruct (py_get (JObj entries) "dependencies" (JObj [])) as [e | x];
    [discriminate |].
  destruct (py_get (JObj entries) "devDependencies" (JObj [])) as [e | y];
    [discriminate |].
  simpl in H.
  destruct x as [| | | | | a]; try discriminate.
  destruct y as [| | | | | b]; try discriminate.
  simpl in H. injection H as <-.
  exists a, b. repeat split. intros k. apply dict_mem_merge.
Qed.

Lemma all_deps_is_the_union_witness :
  ProjectDetector.all_deps Scripted.ts_react_manifest
  = inr [("react", JStr "^18.2.0"); ("typescript", JStr "^5.0.0")]
  /\ is_dict Scripted.ts_react_manifest = true
  /\ exists a b,
       py_get Scripted.ts_react_manifest "dependencies" (JObj [])
       = inr (JObj a)
       /\ py_get Scripted.ts_react_manifest "devDependencies" (JObj [])
          = inr (JObj b)
       /\ [("react", JStr "^18.2.0"); ("typescript", JStr "^5.0.0")]
          = dict_merge a b
       /\ forall k,
            dict_mem k [("react", JStr "^18.2.0"); ("typescript", JStr "^5.0.0")]
            = dict_mem k a || dict_mem k b.
Proof.
  split; [reflexivity |].
  apply (all_deps_is_the_union Scripted.ts_react_manifest
           [("react", JStr "^18.2.0"); ("typescript", JStr "^5.0.0")]).
  reflexivity.
Defined.

(** * Precedence in the decision list *)

(** X23.  A rule of the package manifest that matches decides the
    classification: whatever other manifests or marker files the tree
    holds, the classifier returns that rule's answer and looks no further. *)
Theorem package_rule_decides {W : Type} {FS : FileSystem W} {L : PyLib}
    (p : string) (files : ManifestFiles) (w : W) (v : json) (d : Detection) :
  package_json files = Some v ->
  truthy v = true ->
  ProjectDetector._package_json_rules v = inr (Some d) ->
  ProjectDetector._detect_language_and_framework p files w = (inr d, w)
  /\ In (det_language d) ["javascript"; "typescript"].
Proof.
  intros Hv Ht Hr. split.
  - unfold ProjectDetector._detect_language_and_framework.
    rewrite Hv, Ht. unfold liftE at 1. unfold bind at 1. rewrite Hr.
    reflexivity.
  - pose proof (package_rules_in_table v d Hr) as Hin.
    unfold ProjectDetector._package_json_rules in Hr.
    destruct (ProjectDetector.all_deps v) as [e | deps]; [discriminate |].
    simpl in Hr.
    repeat match type of Hr with
           | context [if ?b then _ else _] => destruct b
           | context [bindE ?m _] => destruct m; simpl in Hr
           end;
      try discriminate; injection Hr as <-; in_table.
Qed.

Lemma package_rule_decides_witness :
  package_json (manifests "proj" Scripted.ts_react_tree)
  = Some Scripted.ts_react_manifest
  /\ truthy Scripted.ts_react_manifest = true
  /\ ProjectDetector._package_json_rules Scripted.ts_react_manifest
     = inr (Some typescript_backend)
  /\ ProjectDetector._detect_language_and_framework "proj"
       (manifests "proj" Scripted.ts_react_tree) Scripted.ts_react_tree
     = (inr typescript_backend, Scripted.ts_react_tree)
  /\ In (det_language typescript_backend) ["javascript"; "typescript"].
Proof.
  repeat (split; [reflexivity |]).
  apply (package_rule_decides "proj" (manifests "proj" Scripted.ts_react_tree)
           Scripted.ts_react_tree Scripted.ts_react_manifest
           typescript_backend); reflexivity.
Defined.

(** X24.  When no package rule matches and the tree has a Python marker (a
    non-empty requirements list, a [requirements.txt] or a
    [pyproject.toml]), the classifier answers python / backend with one of
    the four Python framework labels, whatever JVM, Go, C, C# or PHP
    markers are also there. *)
Theorem python_markers_decide {W : Type} {FS : FileSystem W} {L : PyLib}
    (p : string) (files : ManifestFiles) (w : W) :
  match package_json files with
  | Some v => truthy v = false
              \/ ProjectDetector._package_json_rules v = inr None
  | None => True
  end ->
  truthy_list (requirements_txt files)
  || (exists_in p "requirements.txt" w || exists_in p "pyproject.toml" w)
  = true ->
  exists fw,
    ProjectDetector._detect_language_and_framework p files w
    = (inr {| det_language := "python"; det_framework := Some fw;
              det_type := "backend" |}, w)
    /\ In fw ["django"; "flask"; "fastapi"; "unknown"].
Proof.
  intros Hpkg Hpy. unfold ProjectDetector._detect_language_and_framework.
  assert (Hfirst :
    match package_json files with
    | Some v => if truthy v
                then liftE (ProjectDetector._package_json_rules v)
                else ret None
    | None => ret None
    end w = (inr None, w)).
  { destruct (package_json files) as [v |]; [| reflexivity].
    destruct (truthy v) eqn:Ht; [| reflexivity].
    destruct Hpkg as [Hf | Hn]; [discriminate |].
    unfold liftE. rewrite Hn. reflexivity. }
  rewrite (bind_run _ _ _ _ _ Hfirst).
  erewrite bind_run
    by (repeat first [apply orM_run | apply _file_exists_run | reflexivity]).
  rewrite Hpy.
  destruct (safe_detect_python_framework p w) as [fw Hfw].
  rewrite (bind_run _ _ _ _ _ Hfw).
  exists fw. split; [reflexivity |].
  exact (python_framework_labels p _ _ _ Hfw).
Qed.

Lemma python_markers_decide_witness :
  (ProjectDetector._package_json_rules Fixtures.lodash_manifest = inr None)
  /\ truthy_list (requirements_txt (manifests "proj" Fixtures.mixed_tree))
     || (exists_in "proj" "requirements.txt" Fixtures.mixed_tree
         || exists_in "proj" "pyproject.toml" Fixtures.mixed_tree) = true
  /\ exists fw,
       ProjectDetector._detect_language_and_framework "proj"
         (manifests "proj" Fixtures.mixed_tree) Fixtures.mixed_tree
       = (inr {| det_language := "python"; det_framework := Some fw;
                 det_type := "backend" |}, Fixtures.mixed_tree)
       /\ In fw ["django"; "flask"; "fastapi"; "unknown"].
Proof.
  split; [reflexivity |]. split; [reflexivity |].
  apply (python_markers_decide "proj" (manifests "proj" Fixtures.mixed_tree)
           Fixtures.mixed_tree).
  - right. reflexivity.
  - reflexivity.
Defined.

(** * Analysis followed by generation *)

(** X25.  Analysing a project and then generating for a platform that is
    not one of the three never touches the tree: the run ends with the
    exception detection raised, or else with the unsupported-platform
    [ValueError], and the world is the one it started from. *)
Theorem analyze_then_generate_unsupported
    {W : Type} {FS : FileSystem W} {L : PyLib}
    (p : string) (cfg : Config.t) (w : W) (platform : string) :
  Config.platform cfg = Some platform ->
  platform <> "github-actions" ->
  platform <> "gitlab-ci" ->
  platform <> "jenkins" ->
  exists e,
    bind (AmazingAutomata.analyze_project p)
         (fun info => AmazingAutomata.generate_pipeline cfg p info) w
    = (inl e, w)
    /\ (e = PipelineGenerator.unsupported_platform platform
        \/ fst (ProjectDetector.detect p w) = inl e).
Proof.
  intros Hp H1 H2 H3.
  unfold AmazingAutomata.analyze_project, AmazingAutomata.generate_pipeline.
  assert (Hd : bind (ProjectDetector.detect p) (fun info => ret info) w
               = ProjectDetector.detect p w).
  { unfold bind, ret. destruct (ProjectDetector.detect p w) as [[e | a] w'];
      reflexivity. }
  pose proof (read_only_detect p w) as Hro.
  unfold bind at 1. rewrite try_reraise, Hd.
  destruct (ProjectDetector.detect p w) as [[e | info] w'] eqn:E;
    simpl in Hro; subst w'.
  - exists e. split; [reflexivity | right; reflexivity].
  - exists (PipelineGenerator.unsupported_platform platform).
    split; [| left; reflexivity].
    rewrite try_reraise. unfold bind, PipelineGenerator.generate.
    rewrite Hp, (templates_unknown platform H1 H2 H3). reflexivity.
Qed.

Lemma analyze_then_generate_unsupported_witness :
  let cfg := Main.config "circleci" None true in
  Config.platform cfg = Some "circleci"
  /\ "circleci" <> "github-actions"
  /\ "circleci" <> "gitlab-ci"
  /\ "circleci" <> "jenkins"
  /\ exists e,
       bind (AmazingAutomata.analyze_project "proj")
            (fun info => AmazingAutomata.generate_pipeline cfg "proj" info)
            Scripted.ts_react_tree
       = (inl e, Scripted.ts_react_tree)
       /\ (e = PipelineGenerator.unsupported_platform "circleci"
           \/ fst (ProjectDetector.detect "proj" Scripted.ts_react_tree)
              = inl e).
Proof.
  intros cfg.
  repeat (split; [first [reflexivity | discriminate] |]).
  apply (analyze_then_generate_unsupported "proj" cfg Scripted.ts_react_tree
           "circleci"); first [reflexivity | discriminate].
Defined.

(** * Deploy steps outside GitHub Actions *)

(** C5.  With [deployment.enabled], strategy ['docker'] and image name
    ['svc'], generation for GitLab CI writes a pipeline whose deploy job is
    the single placeholder line, which does not name [svc], and generation
    for Jenkins writes a pipeline with no deploy stage at all; the same
    deployment settings give the two [svc] steps under GitHub Actions, the
    only template that calls [_generate_deploy_steps]. *)
Theorem generate_deploy_ignores_strategy_off_github (info : ProjectInfo) :
  let gitlab := Sample.config "gitlab-ci" Sample.docker_svc in
  let jenkins := Sample.config "jenkins" Sample.docker_svc in
  let github := Sample.config "github-actions" Sample.docker_svc in
  Config.deployment_enabled gitlab = true
  /\ Config.strategy (Config.get_deployment gitlab) = Some "docker"
  /\ Config.imageName (Config.get_deployment gitlab) = Some "svc"
  /\ (exists g,
        fst (PipelineGenerator.generate info gitlab Scripted.empty_tree)
        = inr g
        /\ PipelineGenerator.platform g = "gitlab-ci"
        /\ PipelineGenerator.content (PipelineGenerator.pipeline g)
           = yaml_dump (PipelineGenerator.gitlab_ci_pipeline info gitlab))
  /\ Doc.gitlab_script (PipelineGenerator.gitlab_ci_pipeline info gitlab)
       "deploy"
     = [YStr ("echo " ++ dq ++ "Deploy script would go here" ++ dq)]
  /\ str_in "svc" ("echo " ++ dq ++ "Deploy script would go here" ++ dq)
     = false
  /\ (exists g,
        fst (PipelineGenerator.generate info jenkins Scripted.empty_tree)
        = inr g
        /\ PipelineGenerator.platform g = "jenkins"
        /\ PipelineGenerator.content (PipelineGenerator.pipeline g)
           = yaml_dump (PipelineGenerator.jenkins_pipeline info jenkins))
  /\ Doc.has_deploy_stage "jenkins"
       (PipelineGenerator.jenkins_pipeline info jenkins) = false
  /\ map Doc.run_of
         (Doc.github_steps
            (PipelineGenerator.github_actions_workflow info github) "deploy")
     = ["docker build -t svc:${{ github.sha }} .";
        "docker push svc:${{ github.sha }}"].
Proof.
  repeat (split; [reflexivity |]).
  split; [eexists; split; [reflexivity | split; reflexivity] |].
  repeat (split; [reflexivity |]).
  split; [eexists; split; [reflexivity | split; reflexivity] |].
  split; reflexivity.
Qed.
